(** * A shallow embedding of [stages/dataset/torchvision_dataset.py]

    The file defines two classes: [PreloadedDataset], an in-memory copy of a
    dataset whose transform is applied at read time, and [TorchVisionDataset],
    a pipeline stage that resolves a dataset from its configuration, reports
    batch counts, optionally preloads every split in [prepare] and forwards
    queue records unchanged in [run].

    Python objects are modelled as records, exceptions as an explicit error
    type, dictionaries either as [gmap] (the configuration, which is only
    read) or as insertion-ordered association lists (the [datasets] mapping,
    which is iterated), and mutation of [self] as explicit state passing. *)

From Stdlib Require Import ZArith Ascii String List Bool Lia DecimalString.
From stdpp Require Import base option list strings gmap.

Set Warnings "-register-all".
Local Open Scope string_scope.
Local Open Scope list_scope.
Local Open Scope Z_scope.

(** ** Python runtime: exceptions and results *)

(** The exception classes that the source raises itself ([ValueError] and
    the bare [Exception], with their messages) or that the interpreter
    raises on its behalf. [ProviderError] stands for whatever an external
    collaborator reports. *)
Inductive exn : Type :=
| ValueError (msg : string)
| Exception (msg : string)
| TypeError
| IndexError
| AttributeError
| KeyError
| ZeroDivisionError
| ProviderError (msg : string).

Inductive result (A : Type) : Type :=
| OK (a : A)
| Raise (e : exn).
Arguments OK {A} a.
Arguments Raise {A} e.

#[global] Instance result_ret : MRet result := @OK.
#[global] Instance result_bind : MBind result := λ A B f m,
  match m with
  | OK a => f a
  | Raise e => Raise e
  end.
#[global] Instance result_fmap : FMap result := λ A B f m,
  match m with
  | OK a => OK (f a)
  | Raise e => Raise e
  end.

Definition is_OK {A} (r : result A) : bool :=
  match r with OK _ => true | Raise _ => false end.

(** The error taxonomy of the design document, as a classification of the
    exceptions of the code: a [ValueError] is how the code reports a
    configuration error, the bare [Exception] how it reports an unknown
    name. *)
Inductive error_class : Type :=
| ConfigError | NotFoundError | IndexErrorClass | ProviderErrorClass | OtherError.

Definition classify (e : exn) : error_class :=
  match e with
  | ValueError _ => ConfigError
  | Exception _ => NotFoundError
  | IndexError => IndexErrorClass
  | ProviderError _ => ProviderErrorClass
  | TypeError | AttributeError | KeyError | ZeroDivisionError => OtherError
  end.

(** [l[index]] on a Python list: a negative index counts from the end, and
    anything outside [-len l <= index < len l] raises [IndexError]. *)
Definition list_getitem {A} (l : list A) (index : Z) : result A :=
  let n := Z.of_nat (length l) in
  let i := if index <? 0 then index + n else index in
  if (i <? 0) || (n <=? i) then Raise IndexError
  else match l !! Z.to_nat i with
       | Some x => OK x
       | None => Raise IndexError
       end.

(** Calling an attribute that may hold [None]: [None(x)] is a [TypeError]. *)
Definition py_call {A B} (f : option (A → B)) (x : A) : result B :=
  match f with
  | Some g => OK (g x)
  | None => Raise TypeError
  end.

(** ** Datasets *)

Section Datasets.
Context {sample label : Type}.

Definition Transform : Type := sample → sample.
Definition item : Type := sample * label.

(** What the code uses of [torchvision.datasets.VisionDataset]: the
    [transform] attribute (read and assigned in [prepare]), [__getitem__]
    and [__len__]. *)
Class VisionDataset (D : Type) : Type := {
  get_transform : D → option Transform;
  set_transform : D → option Transform → D;
  getitem : D → Z → result item;
  len : D → nat
}.

(** *** class PreloadedDataset(VisionDataset) *)

Record PreloadedDataset : Type := {
  transform : option Transform;
  data : list item
}.

(** The loop [for idx in range(len(dataset)): self.data.append(dataset[idx])],
    with the list built so far as accumulator; an exception raised by
    [dataset[idx]] leaves the loop. *)
Fixpoint append_items `{VisionDataset D} (dataset : D) (idxs : list nat)
    (acc : list item) : result (list item) :=
  match idxs with
  | [] => OK acc
  | idx :: rest =>
      match getitem dataset (Z.of_nat idx) with
      | OK it => append_items dataset rest (acc ++ [it])
      | Raise e => Raise e
      end
  end.

(** [PreloadedDataset.__init__(self, dataset, transform=None)] *)
Definition PreloadedDataset_init `{VisionDataset D} (dataset : D)
    (transform : option Transform) : result PreloadedDataset :=
  data ← append_items dataset (seq 0 (len dataset)) [];
  OK {| transform := transform; data := data |}.

(** [PreloadedDataset.__getitem__(self, index)]: the stored pair is read
    first, then the transform is called on the sample. *)
Definition PreloadedDataset_getitem (self : PreloadedDataset) (index : Z)
    : result item :=
  '(x, y) ← list_getitem (data self) index;
  x' ← py_call (transform self) x;
  OK (x', y).

(** [PreloadedDataset.__len__(self)] *)
Definition PreloadedDataset_len (self : PreloadedDataset) : nat :=
  length (data self).

#[global] Instance PreloadedDataset_VisionDataset
    : VisionDataset PreloadedDataset := {
  get_transform := transform;
  set_transform self t := {| transform := t; data := data self |};
  getitem := PreloadedDataset_getitem;
  len := PreloadedDataset_len
}.

(** *** The provider's collections

    A dataset object built by a class of [torchvision.datasets] is outside
    this repository. It is kept abstract: a length and an item access that
    depends on the transform currently attached to the object (the provider
    applies it internally when it is not [None]). *)
Record ProviderDataset : Type := {
  pd_transform : option Transform;
  pd_len : nat;
  pd_fetch : option Transform → Z → result item
}.

#[global] Instance ProviderDataset_VisionDataset
    : VisionDataset ProviderDataset := {
  get_transform := pd_transform;
  set_transform self t :=
    {| pd_transform := t; pd_len := pd_len self; pd_fetch := pd_fetch self |};
  getitem self index := pd_fetch self (pd_transform self) index;
  len := pd_len
}.

(** A value of [self.datasets]: the provider's collection, or the cache
    that [prepare] put in its place. *)
Inductive dataset_obj : Type :=
| Provider (p : ProviderDataset)
| Cache (c : PreloadedDataset).

#[global] Instance dataset_obj_VisionDataset : VisionDataset dataset_obj := {
  get_transform d :=
    match d with Provider p => get_transform p | Cache c => get_transform c end;
  set_transform d t :=
    match d with
    | Provider p => Provider (set_transform p t)
    | Cache c => Cache (set_transform c t)
    end;
  getitem d index :=
    match d with Provider p => getitem p index | Cache c => getitem c index end;
  len d := match d with Provider p => len p | Cache c => len c end
}.

End Datasets.

Arguments Transform : clear implicits.
Arguments item : clear implicits.
Arguments PreloadedDataset : clear implicits.
Arguments ProviderDataset : clear implicits.
Arguments dataset_obj : clear implicits.
Arguments VisionDataset : clear implicits.

(** ** Configuration values and dictionaries *)

(** The values a stage configuration holds under the keys the stage reads:
    [None], booleans, integers, strings and lists of strings. *)
Inductive value : Type :=
| VNone
| VBool (b : bool)
| VInt (z : Z)
| VStr (s : string)
| VList (l : list string).

(** An entry of the outer [stage_config] dictionary: a plain value, or a
    nested dictionary such as the one stored under ["config"]. *)
Inductive config_entry : Type :=
| Val (v : value)
| Dict (d : gmap string value).

(** Truth value of a Python object, as tested by [if not self.preload]. *)
Definition py_bool (v : value) : bool :=
  match v with
  | VNone => false
  | VBool b => b
  | VInt z => negb (z =? 0)
  | VStr s => negb (String.eqb s "")
  | VList l => match l with [] => false | _ => true end
  end.

(** [str(v)] for the values an f-string of the source can meet. *)
Definition py_str_int (z : Z) : string := NilZero.string_of_int (Z.to_int z).
Definition py_str_bool (b : bool) : string := if b then "True" else "False".

(** [d.get(key, default)]: only a dictionary has the method. *)
Definition py_get (d : config_entry) (key : string) (dflt : value)
    : result value :=
  match d with
  | Dict m => OK (default dflt (m !! key))
  | Val _ => Raise AttributeError
  end.

(** [for x in v]: a list yields its elements, a string its characters;
    [None], booleans and integers are not iterable. *)
Definition py_iter (v : value) : result (list string) :=
  match v with
  | VList l => OK l
  | VStr s => OK (map (λ c, String c EmptyString) (list_ascii_of_string s))
  | VNone | VBool _ | VInt _ => Raise TypeError
  end.

(** [a // b] for an integer [a]: floor division, which is what [Z.div]
    computes; a boolean divisor counts as 0 or 1. *)
Definition py_floordiv (a : Z) (b : value) : result Z :=
  match b with
  | VInt z => if z =? 0 then Raise ZeroDivisionError else OK (a / z)
  | VBool true => OK (a / 1)
  | VBool false => Raise ZeroDivisionError
  | VNone | VStr _ | VList _ => Raise TypeError
  end.

(** [os.path.join(a, *p)] of [posixpath]. *)
Definition starts_with_slash (s : string) : bool :=
  match s with
  | String c _ => Ascii.eqb c "/"%char
  | EmptyString => false
  end.

Fixpoint ends_with_slash (s : string) : bool :=
  match s with
  | EmptyString => false
  | String c EmptyString => Ascii.eqb c "/"%char
  | String _ rest => ends_with_slash rest
  end.

Definition os_path_join (a : string) (p : list string) : string :=
  fold_left (λ path b,
    if starts_with_slash b then b
    else if String.eqb path "" || ends_with_slash path then path +:+ b
    else path +:+ "/" +:+ b) p a.

(** A [dict] with string keys, in insertion order. Assigning to a key that
    is present replaces the value where it stands; a new key goes last. *)
Definition dict (V : Type) : Type := list (string * V).

Fixpoint dict_setitem {V} (d : dict V) (key : string) (v : V) : dict V :=
  match d with
  | [] => [(key, v)]
  | (k, v') :: rest =>
      if String.eqb k key then (k, v) :: rest
      else (k, v') :: dict_setitem rest key v
  end.

Fixpoint dict_getitem {V} (d : dict V) (key : string) : result V :=
  match d with
  | [] => Raise KeyError
  | (k, v) :: rest => if String.eqb k key then OK v else dict_getitem rest key
  end.

Definition dict_keys {V} (d : dict V) : list string := fst <$> d.

(** Every Python dictionary holds a key once. *)
Definition dict_wf {V} (d : dict V) : Prop := NoDup (dict_keys d).

(** The comprehension [{x: f(x) for x in xs}], in any monad [F] in which
    [f] runs; [acc] is the dictionary built so far. *)
Fixpoint dict_comprehension {F : Type → Type} `{MBind F, MRet F} {V : Type}
    (f : string → F V) (xs : list string) (acc : dict V) : F (dict V) :=
  match xs with
  | [] => mret acc
  | x :: rest => v ← f x; dict_comprehension f rest (dict_setitem acc x v)
  end.

(** The comprehension [{k: f(v) for (k, v) in d.items()}]. *)
Fixpoint dict_comprehension_items {F : Type → Type} `{MBind F, MRet F}
    {V W : Type} (f : V → F W) (items : list (string * V)) (acc : dict W)
    : F (dict W) :=
  match items with
  | [] => mret acc
  | (k, v) :: rest =>
      w ← f v; dict_comprehension_items f rest (dict_setitem acc k w)
  end.

(** ** Observable events *)

(** What the stage does to the world outside the Python heap: the probe of
    the file system, the lookup in the weights registry, the instantiation
    of a provider's dataset (which may download), and the log lines. *)
Inductive event : Type :=
| EvPathExists (path : string)
| EvGetWeight (weights_name : value)
| EvDataset (root split : string) (download : bool)
| EvLog (parent_name name phase tag : string).

(** ** Effects: a state, trace and exception monad

    A computation reads and updates a state of type [S], appends to the
    trace of events, and either returns a value or raises. The state and
    the trace reached when an exception is raised are kept, as the
    mutations of [self] made before a [raise] are. *)
Definition M (S A : Type) : Type := S → list event → result A * S * list event.

#[global] Instance M_ret S : MRet (M S) := λ A a s t, (OK a, s, t).
#[global] Instance M_bind S : MBind (M S) := λ A B f m s t,
  match m s t with
  | (OK a, s', t') => f a s' t'
  | (Raise e, s', t') => (Raise e, s', t')
  end.

Definition raise {S A} (e : exn) : M S A := λ s t, (Raise e, s, t).
Definition lift {S A} (r : result A) : M S A := λ s t, (r, s, t).
Definition gets {S A} (f : S → A) : M S A := λ s t, (OK (f s), s, t).
Definition modify {S} (f : S → S) : M S unit := λ s t, (OK tt, f s, t).
Definition emit {S} (e : event) : M S unit := λ s t, (OK tt, s, t ++ [e]).

(** A [for] loop over a list, left when the body raises. *)
Fixpoint for_each {S A} (body : A → M S unit) (xs : list A) : M S unit :=
  match xs with
  | [] => mret tt
  | x :: rest => _ ← body x; for_each body rest
  end.

(** Projections of what a computation leaves behind. *)
Definition outcome {S A} (r : result A * S * list event) : result A := r.1.1.
Definition final_state {S A} (r : result A * S * list event) : S := r.1.2.
Definition trace {S A} (r : result A * S * list event) : list event := r.2.

(** ** The stage *)

(** The attributes of the base class [stages.stage.Stage] that this file
    reads: [self.name], [self.parent_name] and [self.disable_logs]. *)
Record Stage : Type := {
  name : string;
  parent_name : string;
  disable_logs : bool
}.

Section TorchVisionDataset.
Context {sample label : Type}.

(** A class of [torchvision.datasets], called with [root], [split] and
    [download]: it fails, or gives the collection's length and item access.
    The [transform] keyword is stored on the object by the base class of
    the dataset, which is how [prepare] finds it again. *)
Definition dataset_class : Type :=
  string → string → bool →
  result (nat * (option (Transform sample) → Z → result (item sample label))).

(** What [torchvision.models.get_weight] returns, as far as it is used. *)
Record Weights : Type := {
  transforms : Transform sample
}.

(** The collaborators outside [torchvision_dataset.py]: the constructor and
    the [prepare] hook of the base class [Stage], the namespace
    [torchvision.datasets.__dict__], the working directory and the file
    system probe of [os], [get_weight], and the transform [v2.ToTensor()]. *)
Record Env : Type := {
  Stage_init : gmap string config_entry → string → result Stage;
  Stage_prepare : Stage → result Stage;
  torchvision_datasets : string → option dataset_class;
  os_getcwd : string;
  os_path_exists : string → bool;
  get_weight : value → result Weights;
  ToTensor : Transform sample
}.

Record TorchVisionDataset : Type := {
  base : Stage;
  preload : value;
  dataset : dataset_class;
  datasets : dict (dataset_obj sample label);
  batch_size : value
}.

Context (env : Env).

(** [os.path.exists(path)], recorded in the trace. *)
Definition path_exists {S} (path : string) : M S bool :=
  _ ← emit (EvPathExists path);
  mret (os_path_exists env path).

(** [get_weight(weights_name)], recorded in the trace. *)
Definition call_get_weight {S} (weights_name : value) : M S Weights :=
  _ ← emit (EvGetWeight weights_name);
  lift (get_weight env weights_name).

(** [self.dataset(root=root, split=x, download=download, transform=t)],
    recorded in the trace. *)
Definition instantiate {S} (cls : dataset_class) (root x : string)
    (download : bool) (t : Transform sample)
    : M S (dataset_obj sample label) :=
  _ ← emit (EvDataset root x download);
  '(n, fetch) ← lift (cls root x download);
  mret (Provider {| pd_transform := Some t; pd_len := n; pd_fetch := fetch |}).

Definition is_None (v : value) : bool :=
  match v with VNone => true | _ => false end.

(** [TorchVisionDataset.__init__(self, stage_config, parent_name)].
    The lookup [torchvision.datasets.__dict__.get(dataset_name, None)] is
    written by cases on the type of [dataset_name]: a list is unhashable, a
    boolean or an integer is no name of the module, a string is looked up. *)
Definition TorchVisionDataset_init (stage_config : gmap string config_entry)
    (parent : string) : M unit TorchVisionDataset :=
  base ← lift (Stage_init env stage_config parent);
  let stage_config := default (Dict ∅) (stage_config !! "config") in
  preload ← lift (py_get stage_config "preload" (VBool false));
  dataset_name ← lift (py_get stage_config "dataset_name" VNone);
  match dataset_name with
  | VNone => raise (ValueError "Missing dataset name.")
  | VList _ => raise TypeError
  | VBool b =>
      raise (Exception ("Could not find dataset " +:+ py_str_bool b +:+ "."))
  | VInt z =>
      raise (Exception ("Could not find dataset " +:+ py_str_int z +:+ "."))
  | VStr dataset_name =>
      match torchvision_datasets env dataset_name with
      | None =>
          raise (Exception ("Could not find dataset " +:+ dataset_name +:+ "."))
      | Some dataset =>
          split ← lift (py_get stage_config "split" (VList ["val"]));
          dataset_downloaded ←
            path_exists (os_path_join (os_getcwd env) ["data"; dataset_name]);
          weights_name ← lift (py_get stage_config "weights" VNone);
          datasets ←
            (if is_None weights_name then
               xs ← lift (py_iter split);
               dict_comprehension
                 (λ x, instantiate dataset ("data/" +:+ dataset_name) x
                         (negb dataset_downloaded) (ToTensor env)) xs []
             else
               weights ← call_get_weight weights_name;
               let preprocess := transforms weights in
               xs ← lift (py_iter split);
               dict_comprehension
                 (λ x, instantiate dataset ("data/" +:+ dataset_name) x
                         (negb dataset_downloaded) preprocess) xs []);
          batch_size ← lift (py_get stage_config "batch_size" (VInt 1));
          mret {| base := base; preload := preload; dataset := dataset;
                  datasets := datasets; batch_size := batch_size |}
      end
  end.

(** [TorchVisionDataset.get_datasets(self)] *)
Definition get_datasets (self : TorchVisionDataset)
    : dict (dataset_obj sample label) :=
  datasets self.

(** [TorchVisionDataset.get_num_batches(self)] *)
Definition get_num_batches (self : TorchVisionDataset) : result (dict Z) :=
  dict_comprehension_items
    (λ v, py_floordiv (Z.of_nat (len v)) (batch_size self)) (datasets self) [].

(** Assignments to fields of [self]. *)
Definition set_base (b : Stage) (self : TorchVisionDataset)
    : TorchVisionDataset :=
  {| base := b; preload := preload self; dataset := dataset self;
     datasets := datasets self; batch_size := batch_size self |}.

Definition set_datasets (d : dict (dataset_obj sample label))
    (self : TorchVisionDataset) : TorchVisionDataset :=
  {| base := base self; preload := preload self; dataset := dataset self;
     datasets := d; batch_size := batch_size self |}.

(** [self.datasets[key]] read and assigned. *)
Definition datasets_getitem (key : string)
    : M TorchVisionDataset (dataset_obj sample label) :=
  d ← gets datasets; lift (dict_getitem d key).

Definition datasets_setitem (key : string) (v : dataset_obj sample label)
    : M TorchVisionDataset unit :=
  modify (λ self, set_datasets (dict_setitem (datasets self) key v) self).

(** [log_phase_single(parent_name, name, phase, tag)] of [stages.stage]. *)
Definition log_phase_single {S} (parent name phase tag : string) : M S unit :=
  emit (EvLog parent name phase tag).

(** Modelled from the spec: the decorator [log_phase] of [stages.stage] is
    not part of this file. The observability hook emits a phase-start and a
    phase-end event around the phase, does nothing when logging is disabled
    by configuration, and does not alter control flow. *)
Definition log_phase {A} (phase : string) (body : M TorchVisionDataset A)
    : M TorchVisionDataset A :=
  b ← gets base;
  if disable_logs b then body
  else
    _ ← log_phase_single (parent_name b) (name b) phase "start";
    a ← body;
    _ ← log_phase_single (parent_name b) (name b) phase "end";
    mret a.

(** [super().prepare()]: the hook of the base class acts on the attributes
    of the base class. *)
Definition super_prepare : M TorchVisionDataset unit :=
  b ← gets base;
  b' ← lift (Stage_prepare env b);
  modify (set_base b').

(** The body of the loop of [prepare] for one [key]. *)
Definition prepare_split (key : string) : M TorchVisionDataset unit :=
  (* transform = self.datasets[key].transform *)
  d ← datasets_getitem key;
  let transform := get_transform d in
  (* self.datasets[key].transform = None *)
  d ← datasets_getitem key;
  _ ← datasets_setitem key (set_transform d None);
  (* self.datasets[key] = PreloadedDataset(self.datasets[key], transform) *)
  d ← datasets_getitem key;
  c ← lift (PreloadedDataset_init d transform);
  datasets_setitem key (Cache c).

(** The body of [TorchVisionDataset.prepare(self)]. *)
Definition prepare_body : M TorchVisionDataset unit :=
  _ ← super_prepare;
  preload ← gets preload;
  if negb (py_bool preload) then mret tt
  else
    keys ← gets (λ self, dict_keys (datasets self));
    for_each prepare_split keys.

(** [TorchVisionDataset.prepare(self)], decorated with [log_phase]. *)
Definition prepare : M TorchVisionDataset unit :=
  log_phase "prepare" prepare_body.

End TorchVisionDataset.

Arguments dataset_class : clear implicits.
Arguments Weights : clear implicits.
Arguments Env : clear implicits.
Arguments TorchVisionDataset : clear implicits.

(** ** The run loop and the queue fabric *)

Section Run.
Context {sample label payload : Type}.

(** A queue record: a data payload or the termination sentinel. *)
Inductive queue_record : Type :=
| Payload (p : payload)
| Sentinel.

Definition is_sentinel (r : queue_record) : bool :=
  match r with Sentinel => true | Payload _ => false end.

(** The queues of the stage: for every input queue and every output queue
    the records waiting in it, oldest first. *)
Record queues : Type := {
  input_queues : list (list queue_record);
  output_queues : list (list queue_record)
}.

(** One record from the head of every queue, or [None] when some queue is
    empty. *)
Fixpoint take_heads (qs : list (list queue_record))
    : option (list queue_record * list (list queue_record)) :=
  match qs with
  | [] => Some ([], [])
  | q :: rest =>
      match q with
      | [] => None
      | r :: q' =>
          match take_heads rest with
          | Some (rs, rest') => Some (r :: rs, q' :: rest')
          | None => None
          end
      end
  end.

(** Modelled from the spec: [Stage.get_next_from_queues] of [stages.stage]
    is not part of this file. It fetches the next record from all
    configured input queues, one record per queue, atomically, and blocks
    while a record is missing; the result maps every queue, in the order of
    the queues, to its record. A fetch that would block for ever on the
    records present is [None] and leaves the queues as they are. *)
Definition get_next_from_queues
    : M queues (option (list (nat * queue_record))) :=
  qs ← gets input_queues;
  match take_heads qs with
  | None => mret None
  | Some (rs, qs') =>
      _ ← modify (λ w, {| input_queues := qs';
                          output_queues := output_queues w |});
      mret (Some (imap (λ i r, (i, r)) rs))
  end.

(** Modelled from the spec: [Stage.is_done] of [stages.stage] is not part
    of this file. The batch is the end of the stream if any fetched record
    is the termination sentinel. *)
Definition is_done (inputs : list (nat * queue_record)) : bool :=
  existsb is_sentinel (map snd inputs).

(** Modelled from the spec: [Stage.push_to_output] of [stages.stage] is not
    part of this file. The record is pushed to every downstream output
    queue. *)
Definition push_to_output (r : queue_record) : M queues unit :=
  modify (λ w, {| input_queues := input_queues w;
                  output_queues := map (λ q, q ++ [r]) (output_queues w) |}).

(** How an execution of the loop ends on the records present: the [break]
    was reached, a fetch blocks for ever, or the iterations allowed to the
    model were used up. *)
Inductive status : Type :=
| Terminated
| Blocked
| OutOfFuel.

(** [TorchVisionDataset.run(self)]: [while True], with [fuel] bounding the
    number of iterations. [list(inputs.values())[0]] is the record of the
    first queue and raises [IndexError] when there is no queue. *)
Fixpoint run (fuel : nat) (self : TorchVisionDataset sample label)
    : M queues status :=
  match fuel with
  | O => mret OutOfFuel
  | S fuel =>
      fetched ← get_next_from_queues;
      match fetched with
      | None => mret Blocked
      | Some inputs =>
          if is_done inputs then
            r ← lift (list_getitem (map snd inputs) 0);
            _ ← push_to_output r;
            mret Terminated
          else
            _ ← (if negb (disable_logs (base self)) then
                   log_phase_single (parent_name (base self))
                     (name (base self)) "run" "start"
                 else mret tt);
            r ← lift (list_getitem (map snd inputs) 0);
            _ ← push_to_output r;
            _ ← (if negb (disable_logs (base self)) then
                   log_phase_single (parent_name (base self))
                     (name (base self)) "run" "end"
                 else mret tt);
            run fuel self
      end
  end.

End Run.

Arguments queue_record : clear implicits.
Arguments queues : clear implicits.

(** ** A concrete pipeline

    Samples and labels are numbers. The provider ["Example"] has ten
    samples for every split but ["empty"], which has none; its item access
    applies the attached transform. It is used to run the definitions on
    concrete inputs. *)

Definition example_fetch (n : nat) (t : option (Transform nat)) (index : Z)
    : result (item nat nat) :=
  if (index <? 0) || (Z.of_nat n <=? index) then Raise IndexError
  else
    let raw := Z.to_nat (10 * index) in
    OK (match t with Some f => f raw | None => raw end, Z.to_nat index).

Definition example_class : dataset_class nat nat :=
  λ root x download,
    if String.eqb x "empty" then OK (0%nat, example_fetch 0)
    else OK (10%nat, example_fetch 10).

Definition example_env : Env nat nat :=
  {| Stage_init := λ stage_config parent,
       OK {| name := "dataset"; parent_name := parent; disable_logs := false |};
     Stage_prepare := λ b, OK b;
     torchvision_datasets := λ s,
       if String.eqb s "Example" then Some example_class else None;
     os_getcwd := "/work";
     os_path_exists := λ _, false;
     get_weight := λ w, Raise (ValueError "Unknown weights.");
     ToTensor := λ x, (x + 1)%nat |}.

Definition example_config (inner : list (string * value))
    : gmap string config_entry :=
  {[ "config" := Dict (list_to_map inner) ]}.

Definition example_stage (inner : list (string * value))
    : result (TorchVisionDataset nat nat) :=
  outcome (TorchVisionDataset_init example_env (example_config inner)
             "pipeline" tt []).

(** A collection of two items, read without a transform, and a cache of
    two items with the successor as transform. *)
Definition example_source : ProviderDataset nat nat :=
  {| pd_transform := None; pd_len := 2; pd_fetch := example_fetch 2 |}.

Definition example_cache : PreloadedDataset nat nat :=
  {| transform := Some S; data := [(0, 0); (10, 1)]%nat |}.

(** The stage that the constructor builds from the provider ["Example"]:
    one collection of [n] items for every requested split [(x, n)]. *)
Definition example_collection (n : nat) : dataset_obj nat nat :=
  Provider {| pd_transform := Some (ToTensor example_env); pd_len := n;
              pd_fetch := example_fetch n |}.

Definition example_self (splits : list (string * nat))
    (preload batch_size : value) : TorchVisionDataset nat nat :=
  {| base := {| name := "dataset"; parent_name := "pipeline";
                disable_logs := false |};
     preload := preload;
     dataset := example_class;
     datasets := (λ kv, (kv.1, example_collection kv.2)) <$> splits;
     batch_size := batch_size |}.

(** The cache of a collection of [n] items of the provider ["Example"],
    and the stage once [prepare] has put the caches in place. *)
Definition example_preloaded (n : nat) : PreloadedDataset nat nat :=
  {| transform := Some (ToTensor example_env);
     data := (λ i, (10 * i, i)%nat) <$> seq 0 n |}.

Definition example_prepared (splits : list (string * nat))
    (preload batch_size : value) : TorchVisionDataset nat nat :=
  {| base := {| name := "dataset"; parent_name := "pipeline";
                disable_logs := false |};
     preload := preload;
     dataset := example_class;
     datasets := (λ kv, (kv.1, Cache (example_preloaded kv.2))) <$> splits;
     batch_size := batch_size |}.

Definition example_prepare_log : list event :=
  [EvLog "pipeline" "dataset" "prepare" "start";
   EvLog "pipeline" "dataset" "prepare" "end"].

(** Two input queues whose first fetch finds the sentinel in the second
    queue only, and one output queue. *)
Definition example_queues : queues nat :=
  {| input_queues := [[Payload 1%nat]; [Sentinel; Payload 9%nat]];
     output_queues := [[]] |}.

(** ** Further concrete inputs and assumptions on providers *)

(** The convention of the classes of [torchvision.datasets]: the item
    access of a collection applies the attached transform to the sample
    that it would return without one. *)
Definition applies_transform {sample label : Type}
    (p : ProviderDataset sample label) : Prop :=
  ∀ (T : Transform sample) (index : Z),
    pd_fetch p (Some T) index
      = (λ it : item sample label, (T it.1, it.2)) <$> pd_fetch p None index.

(** A collection of three items whose item at index 1 cannot be read. *)
Definition example_broken : dataset_obj nat nat :=
  Provider {| pd_transform := Some S; pd_len := 3;
              pd_fetch := λ t index,
                if index =? 1 then Raise (ProviderError "unreadable")
                else example_fetch 3 t index |}.

(** A stage holding the given collections. *)
Definition example_stage_of (ds : dict (dataset_obj nat nat))
    (preload batch_size : value) : TorchVisionDataset nat nat :=
  {| base := {| name := "dataset"; parent_name := "pipeline";
                disable_logs := false |};
     preload := preload;
     dataset := example_class;
     datasets := ds;
     batch_size := batch_size |}.

(** The stages and configurations on which the further properties are
    run. *)
Definition example_config_batch4 : gmap string config_entry :=
  example_config [("dataset_name", VStr "Example"); ("batch_size", VInt 4)].

Definition example_val4 : TorchVisionDataset nat nat :=
  example_self [("val", 10%nat)] (VBool false) (VInt 4).

Definition example_two_splits : TorchVisionDataset nat nat :=
  example_self [("train", 10%nat); ("val", 10%nat)] (VBool true) (VInt 1).

Definition example_partly_broken : TorchVisionDataset nat nat :=
  example_stage_of
    [("train", example_collection 2); ("val", example_broken);
     ("test", example_collection 2)]
    (VBool true) (VInt 1).

Definition example_base : Stage :=
  {| name := "dataset"; parent_name := "pipeline"; disable_logs := false |}.

(** A provider that has no split ["test"], and the collaborators with it
    registered under ["Strict"]. *)
Definition example_strict_class : dataset_class nat nat :=
  λ root x download,
    if String.eqb x "test" then Raise (ValueError "Unknown split.")
    else OK (10%nat, example_fetch 10).

Definition example_strict_env : Env nat nat :=
  {| Stage_init := Stage_init example_env;
     Stage_prepare := Stage_prepare example_env;
     torchvision_datasets := λ s,
       if String.eqb s "Strict" then Some example_strict_class else None;
     os_getcwd := os_getcwd example_env;
     os_path_exists := λ _, true;
     get_weight := get_weight example_env;
     ToTensor := ToTensor example_env |}.

(** Assignment to [self.batch_size]. *)
Definition set_batch_size {sample label : Type} (v : value)
    (self : TorchVisionDataset sample label) : TorchVisionDataset sample label :=
  {| base := base self; preload := preload self; dataset := dataset self;
     datasets := datasets self; batch_size := v |}.



(** * Properties *)

(** ** Python list indexing *)

(** Case analysis on the integer comparisons of a goal. *)
Ltac no_match t :=
  lazymatch t with
  | context [match _ with _ => _ end] => fail
  | _ => idtac
  end.

Ltac zcase :=
  repeat (cbv beta iota zeta; cbn [orb andb negb];
    match goal with
    | |- context [Z.ltb ?a ?b] =>
        no_match a; no_match b; destruct (Z.ltb_spec a b); try lia
    | |- context [Z.leb ?a ?b] =>
        no_match a; no_match b; destruct (Z.leb_spec a b); try lia
    | |- context [Z.eqb ?a ?b] =>
        no_match a; no_match b; destruct (Z.eqb_spec a b); try lia
    end);
  cbv beta iota zeta; cbn [orb andb negb].

Section ListGetitem.
Context {A : Type}.
Implicit Types (l : list A) (index : Z).

Lemma list_getitem_nonneg l index :
  0 ≤ index < Z.of_nat (length l) →
  ∃ x, l !! Z.to_nat index = Some x ∧ list_getitem l index = OK x.
Proof.
  intros Hi. unfold list_getitem. zcase.
  destruct (lookup_lt_is_Some_2 l (Z.to_nat index)) as [x Hx]; [lia|].
  exists x. by rewrite Hx.
Qed.

Lemma list_getitem_lookup l index x :
  0 ≤ index → l !! Z.to_nat index = Some x → list_getitem l index = OK x.
Proof.
  intros H0 Hx. pose proof (lookup_lt_Some _ _ _ Hx) as Hlt.
  destruct (list_getitem_nonneg l index) as (y & Hy & ->); [lia|]. congruence.
Qed.

Lemma list_getitem_negative l index :
  - Z.of_nat (length l) ≤ index < 0 →
  list_getitem l index = list_getitem l (index + Z.of_nat (length l)).
Proof. intros Hi. unfold list_getitem. by zcase. Qed.

Lemma list_getitem_out_of_range l index :
  index < - Z.of_nat (length l) ∨ Z.of_nat (length l) ≤ index →
  list_getitem l index = Raise IndexError.
Proof. intros Hi. unfold list_getitem. by zcase. Qed.

(** Inside [-len l <= index < len l] an element of the list is selected. *)
Lemma list_getitem_in_range l index :
  - Z.of_nat (length l) ≤ index < Z.of_nat (length l) →
  ∃ x, x ∈ l ∧ list_getitem l index = OK x.
Proof.
  intros Hi. destruct (decide (index < 0)) as [Hneg|Hpos].
  - rewrite list_getitem_negative by lia.
    destruct (list_getitem_nonneg l (index + Z.of_nat (length l)))
      as (x & Hx & ->); [lia|].
    exists x. split; [|done]. by eapply list_elem_of_lookup_2.
  - destruct (list_getitem_nonneg l index) as (x & Hx & ->); [lia|].
    exists x. split; [|done]. by eapply list_elem_of_lookup_2.
Qed.

End ListGetitem.

(** ** PreloadedDataset *)

Section PreloadedDatasetFacts.
Context {sample label D : Type} `{VisionDataset sample label D}.
Implicit Types (source : D) (T : Transform sample)
  (self : PreloadedDataset sample label).

(** The loop of the constructor appends, in order, what the source returns
    at each index. *)
Lemma append_items_OK source idxs acc l :
  append_items source idxs acc = OK l →
  ∃ items, l = acc ++ items ∧
    Forall2 (λ idx it, getitem source (Z.of_nat idx) = OK it) idxs items.
Proof.
  revert acc. induction idxs as [|idx idxs IH]; intros acc; simpl.
  - intros [= <-]. exists []. by rewrite app_nil_r.
  - destruct (getitem source (Z.of_nat idx)) as [it|e] eqn:Hit; [|done].
    intros (items & -> & Hitems)%IH.
    exists (it :: items). rewrite <-app_assoc. split; [done|].
    by constructor.
Qed.

(** The loop runs to its end when the source can be read at each index. *)
Lemma append_items_readable source idxs acc :
  (∀ idx, idx ∈ idxs → is_OK (getitem source (Z.of_nat idx)) = true) →
  ∃ l, append_items source idxs acc = OK l.
Proof.
  revert acc. induction idxs as [|idx idxs IH]; intros acc Hread; simpl.
  - by eexists.
  - pose proof (Hread idx ltac:(left)) as Hidx.
    destruct (getitem source (Z.of_nat idx)) as [it|e]; [|done].
    apply IH. intros idx' Hin. apply Hread. by right.
Qed.

(** The loop stops at the first index at which the source raises. *)
Lemma append_items_Raise source idx idxs acc e :
  getitem source (Z.of_nat idx) = Raise e →
  append_items source (idx :: idxs) acc = Raise e.
Proof. intros Hidx. simpl. by rewrite Hidx. Qed.

Lemma PreloadedDataset_init_OK source t self :
  PreloadedDataset_init source t = OK self →
  transform self = t ∧
  Forall2 (λ idx it, getitem source (Z.of_nat idx) = OK it)
    (seq 0 (len source)) (data self).
Proof.
  unfold PreloadedDataset_init.
  destruct (append_items source (seq 0 (len source)) []) as [l|e] eqn:Hl;
    simpl; [|done].
  intros [= <-]. simpl. split; [done|].
  by apply append_items_OK in Hl as (items & -> & Hitems).
Qed.

Lemma PreloadedDataset_init_readable source t :
  (∀ idx : nat, (idx < len source)%nat →
     is_OK (getitem source (Z.of_nat idx)) = true) →
  ∃ self, PreloadedDataset_init source t = OK self.
Proof.
  intros Hread. unfold PreloadedDataset_init.
  destruct (append_items_readable source (seq 0 (len source)) []) as [l ->].
  - intros idx [_ Hidx]%elem_of_seq. apply Hread. lia.
  - simpl. by eexists.
Qed.

(** (C2) Preload equivalence. For a source that can be read at each of its
    indices, [PreloadedDataset(source, T)] is constructed; it holds, in
    order, exactly the pairs [source[0]], ..., [source[len(source)-1]] as
    the source returned them, with [T] kept aside and not applied; and
    reading index [i], [0 <= i < len(source)], returns [(T(sample_i),
    label_i)] for [(sample_i, label_i) = source[i]], the transform being
    applied by the read to the stored sample. *)
Theorem PreloadedDataset_preload_equivalence source T :
  (∀ idx : nat, (idx < len source)%nat →
     is_OK (getitem source (Z.of_nat idx)) = true) →
  ∃ cache,
    PreloadedDataset_init source (Some T) = OK cache ∧
    transform cache = Some T ∧
    PreloadedDataset_len cache = len source ∧
    Forall2 (λ idx it, getitem source (Z.of_nat idx) = OK it)
      (seq 0 (len source)) (data cache) ∧
    ∀ (i : Z) (sample_i : sample) (label_i : label),
      0 ≤ i < Z.of_nat (len source) →
      getitem source i = OK (sample_i, label_i) →
      data cache !! Z.to_nat i = Some (sample_i, label_i) ∧
      PreloadedDataset_getitem cache i = OK (T sample_i, label_i).
Proof.
  intros Hread.
  destruct (PreloadedDataset_init_readable source (Some T) Hread)
    as [cache Hcache].
  exists cache. split; [done|].
  apply PreloadedDataset_init_OK in Hcache as [HT Hdata].
  pose proof (Forall2_length _ _ _ Hdata) as Hlen. rewrite length_seq in Hlen.
  split; [done|]. split; [done|]. split; [done|].
  intros i sample_i label_i Hi Hsrc.
  assert (seq 0 (len source) !! Z.to_nat i = Some (Z.to_nat i)) as Hseq.
  { rewrite lookup_seq_lt by lia. done. }
  destruct (Forall2_lookup_l _ _ _ _ _ Hdata Hseq) as (it & Hit & Hget).
  rewrite Z2Nat.id in Hget by lia. rewrite Hsrc in Hget.
  injection Hget as <-. split; [done|].
  unfold PreloadedDataset_getitem.
  rewrite (list_getitem_lookup _ _ _ (proj1 Hi) Hit). simpl.
  by rewrite HT.
Qed.

(** A read of a cache whose transform is [None] fails at every index: with
    [IndexError] outside [-len <= index < len], with [TypeError] inside. *)
Lemma PreloadedDataset_getitem_None self index :
  transform self = None →
  PreloadedDataset_getitem self index =
    Raise (if (index <? - Z.of_nat (length (data self)))
              || (Z.of_nat (length (data self)) <=? index)
           then IndexError else TypeError).
Proof.
  intros HT. unfold PreloadedDataset_getitem. rewrite HT.
  destruct (decide (index < - Z.of_nat (length (data self))
                    ∨ Z.of_nat (length (data self)) ≤ index)) as [Hout|Hin].
  - rewrite list_getitem_out_of_range by done. by zcase.
  - destruct (list_getitem_in_range (data self) index) as ([x y] & _ & ->);
      [lia|].
    by zcase.
Qed.

(** (C9, as amended) A read of a cache of length [n] whose transform is
    [T]: an index with [index < -n] or [n <= index] raises [IndexError]; an
    index with [0 <= index < n] returns [(T(sample), label)] for the pair
    stored at that position; an index with [-n <= index < 0] counts from the
    end and returns what [index + n] returns. *)
Theorem PreloadedDataset_getitem_by_range self T index :
  transform self = Some T →
  let n := Z.of_nat (PreloadedDataset_len self) in
  (index < - n ∨ n ≤ index →
     PreloadedDataset_getitem self index = Raise IndexError) ∧
  (0 ≤ index < n →
     ∃ x y, data self !! Z.to_nat index = Some (x, y) ∧
       PreloadedDataset_getitem self index = OK (T x, y)) ∧
  (- n ≤ index < 0 →
     ∃ x y, data self !! Z.to_nat (index + n) = Some (x, y) ∧
       PreloadedDataset_getitem self index = OK (T x, y) ∧
       PreloadedDataset_getitem self index =
         PreloadedDataset_getitem self (index + n)).
Proof.
  intros HT n. subst n.
  unfold PreloadedDataset_getitem, PreloadedDataset_len in *.
  rewrite HT. split; [|split].
  - intros Hout. by rewrite list_getitem_out_of_range.
  - intros Hin.
    destruct (list_getitem_nonneg (data self) index) as ([x y] & Hx & ->);
      [done|].
    exists x, y. done.
  - intros Hneg. rewrite list_getitem_negative by done.
    destruct (list_getitem_nonneg (data self)
                (index + Z.of_nat (length (data self))))
      as ([x y] & Hx & ->); [lia|].
    exists x, y. done.
Qed.

End PreloadedDatasetFacts.

(** ** Dictionaries *)

Section DictFacts.
Context {V : Type}.
Implicit Types (d pre post : dict V) (key : string) (v : V).

Lemma dict_getitem_middle pre key v post :
  key ∉ dict_keys pre →
  dict_getitem (pre ++ (key, v) :: post) key = OK v.
Proof.
  induction pre as [|[k v'] pre IH]; simpl; intros Hnotin.
  - by rewrite String.eqb_refl.
  - apply not_elem_of_cons in Hnotin as [Hne Hnotin].
    destruct (String.eqb_spec k key) as [->|_]; [done|]. by apply IH.
Qed.

Lemma dict_setitem_middle pre key v v' post :
  key ∉ dict_keys pre →
  dict_setitem (pre ++ (key, v) :: post) key v' = pre ++ (key, v') :: post.
Proof.
  induction pre as [|[k w] pre IH]; simpl; intros Hnotin.
  - by rewrite String.eqb_refl.
  - apply not_elem_of_cons in Hnotin as [Hne Hnotin].
    destruct (String.eqb_spec k key) as [->|_]; [done|]. by rewrite IH.
Qed.

Lemma dict_setitem_fresh d key v :
  key ∉ dict_keys d → dict_setitem d key v = d ++ [(key, v)].
Proof.
  induction d as [|[k w] d IH]; simpl; intros Hnotin; [done|].
  apply not_elem_of_cons in Hnotin as [Hne Hnotin].
  destruct (String.eqb_spec k key) as [->|_]; [done|]. by rewrite IH.
Qed.

Lemma dict_keys_setitem d key v :
  dict_keys (dict_setitem d key v) =
    if decide (key ∈ dict_keys d) then dict_keys d else dict_keys d ++ [key].
Proof.
  induction d as [|[k w] d IH]; simpl; [done|].
  destruct (String.eqb_spec k key) as [->|Hne]; simpl.
  - rewrite decide_True; [done|left].
  - rewrite IH. destruct (decide (key ∈ dict_keys d)) as [Hin|Hnotin].
    + rewrite decide_True; [done|by right].
    + rewrite decide_False; [done|].
      intros [?|?]%elem_of_cons; [congruence|done].
Qed.

Lemma dict_wf_setitem d key v : dict_wf d → dict_wf (dict_setitem d key v).
Proof.
  unfold dict_wf. rewrite dict_keys_setitem.
  destruct (decide (key ∈ dict_keys d)) as [Hin|Hnotin]; [done|].
  intros Hd. apply NoDup_app. split; [done|].
  split; [|apply NoDup_singleton].
  intros k Hk ->%list_elem_of_singleton. done.
Qed.

Lemma elem_of_dict_keys_setitem d key v k :
  k ∈ dict_keys (dict_setitem d key v) ↔ k = key ∨ k ∈ dict_keys d.
Proof.
  rewrite dict_keys_setitem.
  destruct (decide (key ∈ dict_keys d)) as [Hin|Hnotin].
  - split; [by right|]. by intros [->|?].
  - rewrite elem_of_app, list_elem_of_singleton. tauto.
Qed.

Lemma dict_getitem_OK_elem_of d key v :
  dict_getitem d key = OK v → (key, v) ∈ d.
Proof.
  induction d as [|[k w] d IH]; simpl; [done|].
  destruct (String.eqb_spec k key) as [->|_].
  - intros [= ->]. left.
  - intros Hd. right. by apply IH.
Qed.

Lemma dict_getitem_elem_of d key v :
  dict_wf d → (key, v) ∈ d → dict_getitem d key = OK v.
Proof.
  unfold dict_wf.
  induction d as [|[k w] d IH]; simpl; intros Hwf Hin.
  - by apply elem_of_nil in Hin.
  - apply NoDup_cons in Hwf as [Hk Hwf].
    apply elem_of_cons in Hin as [[= -> ->]|Hin].
    + by rewrite String.eqb_refl.
    + destruct (String.eqb_spec k key) as [->|_]; [|by apply IH].
      exfalso. apply Hk. unfold dict_keys.
      apply list_elem_of_fmap. by exists (key, v).
Qed.

End DictFacts.

(** ** The monad *)

Ltac monad_unfold :=
  unfold mbind, mret, M_bind, M_ret, result_bind, result_ret,
    lift, gets, modify, raise, emit in *.

Lemma for_each_app {S A} (body : A → M S unit) (xs ys : list A) s t :
  for_each body (xs ++ ys) s t =
    match for_each body xs s t with
    | (OK _, s', t') => for_each body ys s' t'
    | (Raise e, s', t') => (Raise e, s', t')
    end.
Proof.
  revert s t. induction xs as [|x xs IH]; intros s t; simpl; [done|].
  monad_unfold. destruct (body x s t) as [[[[]|e] s'] t']; [by apply IH|done].
Qed.

(** ** prepare *)

(** Simplification that leaves the methods of the datasets and the
    dictionary operations folded. *)
Ltac stage_simpl :=
  cbn -[set_transform get_transform getitem len dict_getitem dict_setitem
        PreloadedDataset_init Z.of_nat Z.div].

Section PrepareFacts.
Context {sample label : Type} (env : Env sample label).
Implicit Types (self : TorchVisionDataset sample label)
  (d : dataset_obj sample label) (t : list event)
  (pre todo post : dict (dataset_obj sample label)).

(** What the loop of [prepare] puts in place of an entry: the cache built
    from the collection with its transform taken off, and the transform the
    collection had. *)
Local Abbreviation preloaded d :=
  (PreloadedDataset_init (set_transform d None) (get_transform d)).

Local Abbreviation cached todo caches :=
  (zip_with (λ kv c, (kv.1, Cache c)) todo caches).

Lemma prepare_split_middle self t pre key d post :
  datasets self = pre ++ (key, d) :: post →
  key ∉ dict_keys pre →
  prepare_split key self t =
    match preloaded d with
    | OK c => (OK tt, set_datasets (pre ++ (key, Cache c) :: post) self, t)
    | Raise e =>
        (Raise e,
         set_datasets (pre ++ (key, set_transform d None) :: post) self, t)
    end.
Proof.
  intros Hd Hkey. unfold prepare_split, datasets_getitem, datasets_setitem.
  monad_unfold. stage_simpl. rewrite Hd, dict_getitem_middle by done.
  stage_simpl. rewrite dict_setitem_middle, dict_getitem_middle by done.
  destruct (preloaded d) as [c|e]; stage_simpl; [|done].
  by rewrite dict_setitem_middle.
Qed.

Lemma not_elem_of_keys_pre pre key d post :
  dict_wf (pre ++ (key, d) :: post) → key ∉ dict_keys pre.
Proof.
  unfold dict_wf, dict_keys. rewrite fmap_app, fmap_cons. simpl.
  intros [_ [Hdisj _]]%NoDup_app Hin. apply (Hdisj key Hin). left.
Qed.

Lemma dict_keys_cached todo (caches : list (PreloadedDataset sample label)) :
  length todo = length caches →
  dict_keys (cached todo caches) = dict_keys todo.
Proof.
  revert caches. unfold dict_keys.
  induction todo as [|[k v] todo IH]; intros [|c caches] Hlen;
    try done.
  injection Hlen as Hlen. cbn [zip_with]. rewrite !fmap_cons.
  by rewrite IH.
Qed.

(** The loop over the keys of [todo], when every cache can be built. *)
Lemma prepare_loop_OK todo : ∀ pre post self t caches,
  datasets self = pre ++ todo ++ post →
  dict_wf (pre ++ todo ++ post) →
  Forall2 (λ kv c, preloaded kv.2 = OK c) todo caches →
  for_each prepare_split (dict_keys todo) self t =
    (OK tt, set_datasets (pre ++ cached todo caches ++ post) self, t).
Proof.
  induction todo as [|[key d] todo IH]; intros pre post self t caches Hd Hwf Hall.
  - apply Forall2_nil_inv_l in Hall as ->. simpl in *. monad_unfold.
    rewrite <-Hd. by destruct self.
  - apply Forall2_cons_inv_l in Hall as (c & caches' & Hc & Hall & ->).
    cbn [fst snd] in Hc.
    change (dict_keys ((key, d) :: todo)) with (key :: dict_keys todo).
    cbn [for_each]. monad_unfold.
    rewrite (prepare_split_middle self t pre key d (todo ++ post)), Hc;
      [|done|by eapply not_elem_of_keys_pre].
    rewrite (IH (pre ++ [(key, Cache c)]) post _ t caches').
    + stage_simpl. by rewrite <-!app_assoc.
    + stage_simpl. by rewrite <-app_assoc.
    + rewrite <-app_assoc. revert Hwf. unfold dict_wf, dict_keys.
      by rewrite !fmap_app, !fmap_cons.
    + done.
Qed.

(** The loop stops at the first key whose cache cannot be built; the
    entries before it are caches, the entry itself has lost its transform,
    the entries after it are untouched. *)
Lemma prepare_loop_Raise done : ∀ pre key d post self t caches e,
  datasets self = pre ++ done ++ (key, d) :: post →
  dict_wf (pre ++ done ++ (key, d) :: post) →
  Forall2 (λ kv c, preloaded kv.2 = OK c) done caches →
  preloaded d = Raise e →
  for_each prepare_split (dict_keys (done ++ (key, d) :: post)) self t =
    (Raise e,
     set_datasets
       (pre ++ cached done caches ++ (key, set_transform d None) :: post)
       self, t).
Proof.
  intros pre key d post self t caches e Hd Hwf Hall He.
  unfold dict_keys. rewrite fmap_app, for_each_app.
  fold (dict_keys done).
  rewrite (prepare_loop_OK done pre ((key, d) :: post) self t caches)
    by done.
  rewrite fmap_cons. simpl. monad_unfold.
  rewrite (prepare_split_middle _ t (pre ++ cached done caches) key d post).
  - rewrite He. simpl. by rewrite <-!app_assoc.
  - simpl. by rewrite <-app_assoc.
  - pose proof (dict_keys_cached done caches
                  (Forall2_length _ _ _ Hall)) as Hkeys.
    revert Hwf. unfold dict_wf, dict_keys in *.
    rewrite !fmap_app, !fmap_cons, Hkeys. simpl.
    rewrite app_assoc. intros [_ [Hdisj _]]%NoDup_app Hin.
    apply (Hdisj key); [done|left].
Qed.

(** Either every cache can be built, or there is a first one that cannot. *)
Lemma preloaded_all_or_first todo :
  (∃ caches, Forall2 (λ kv c, preloaded kv.2 = OK c) todo caches) ∨
  (∃ done key d post caches e,
     todo = done ++ (key, d) :: post ∧
     Forall2 (λ kv c, preloaded kv.2 = OK c) done caches ∧
     preloaded d = Raise e).
Proof.
  induction todo as [|[key d] todo IH].
  - left. exists []. constructor.
  - destruct (preloaded d) as [c|e] eqn:Hd.
    + destruct IH as [[caches Hall]|(done & k & d' & post & caches & e & -> & Hall & He)].
      * left. exists (c :: caches). by constructor.
      * right. exists ((key, d) :: done), k, d', post, (c :: caches), e.
        split; [done|]. split; [by constructor|done].
    + right. exists [], key, d, todo, [], e. split; [done|].
      split; [constructor|done].
Qed.


Lemma log_phase_body {A} phase (body : M (TorchVisionDataset sample label) A)
    self t :
  ∃ t0,
    outcome (log_phase phase body self t) = outcome (body self t0) ∧
    final_state (log_phase phase body self t) = final_state (body self t0).
Proof.
  unfold log_phase, log_phase_single. monad_unfold. cbv beta.
  destruct (disable_logs (base self)).
  - by exists t.
  - exists (t ++ [EvLog (parent_name (base self)) (name (base self))
                    phase "start"]).
    cbv beta iota. by destruct (body self _) as [[[a|e] s'] t'].
Qed.

Lemma prepare_body_unfold self t :
  prepare_body env self t =
    match Stage_prepare env (base self) with
    | Raise e => (Raise e, self, t)
    | OK b' =>
        if py_bool (preload self) then
          for_each prepare_split (dict_keys (datasets self)) (set_base b' self) t
        else (OK tt, set_base b' self, t)
    end.
Proof.
  unfold prepare_body, super_prepare. monad_unfold. cbv beta.
  destruct (Stage_prepare env (base self)) as [b'|e]; [|done].
  stage_simpl. by destruct (py_bool (preload self)).
Qed.

(** What a call of [prepare] with [preload] true leads to: all caches built
    and put in place, or an exception at the first cache that cannot be
    built. *)
Lemma prepare_body_cases self t b' :
  dict_wf (datasets self) →
  py_bool (preload self) = true →
  Stage_prepare env (base self) = OK b' →
  (∃ caches,
     Forall2 (λ kv c, preloaded kv.2 = OK c) (datasets self) caches ∧
     prepare_body env self t =
       (OK tt, set_datasets (cached (datasets self) caches) (set_base b' self),
        t)) ∨
  (∃ done key d post caches e,
     datasets self = done ++ (key, d) :: post ∧
     Forall2 (λ kv c, preloaded kv.2 = OK c) done caches ∧
     preloaded d = Raise e ∧
     prepare_body env self t =
       (Raise e,
        set_datasets (cached done caches ++ (key, set_transform d None) :: post)
          (set_base b' self), t)).
Proof.
  intros Hwf Hpre Hbase. rewrite prepare_body_unfold, Hbase, Hpre.
  destruct (preloaded_all_or_first (datasets self))
    as [[caches Hall]|(done & key & d & post & caches & e & Hd & Hall & He)].
  - left. exists caches. split; [done|].
    rewrite (prepare_loop_OK (datasets self) [] [] (set_base b' self) t caches).
    + by rewrite app_nil_r.
    + by rewrite app_nil_r.
    + by rewrite app_nil_r.
    + done.
  - right. exists done, key, d, post, caches, e.
    split; [done|]. split; [done|]. split; [done|]. rewrite Hd.
    rewrite (prepare_loop_Raise done [] key d post (set_base b' self) t caches e);
      try done.
    simpl. by rewrite <-Hd.
Qed.

(** (C4) One call of [prepare]. With [preload] true, and when the hook of
    the base class returns and the cache of every entry can be built, the
    call returns and every entry of [self.datasets], in place and under its
    key, is the [PreloadedDataset] built from the entry's collection with
    its transform set to [None] and from the transform the collection had.
    With [preload] false the call leaves [self.datasets] as it is, and
    returns when the hook of the base class does. *)
Theorem prepare_replaces_entries_by_caches self t :
  dict_wf (datasets self) →
  (py_bool (preload self) = true →
   ∀ b' caches,
     Stage_prepare env (base self) = OK b' →
     Forall2 (λ kv c, preloaded kv.2 = OK c) (datasets self) caches →
     outcome (prepare env self t) = OK tt ∧
     dict_keys (datasets (final_state (prepare env self t)))
       = dict_keys (datasets self) ∧
     datasets (final_state (prepare env self t))
       = zip_with (λ kv c, (kv.1, Cache c)) (datasets self) caches) ∧
  (py_bool (preload self) = false →
   datasets (final_state (prepare env self t)) = datasets self ∧
   ∀ b', Stage_prepare env (base self) = OK b' →
     outcome (prepare env self t) = OK tt).
Proof.
  intros Hwf. unfold prepare.
  destruct (log_phase_body "prepare" (prepare_body env) self t)
    as (t0 & -> & ->).
  split.
  - intros Hpre b' caches Hbase Hall.
    rewrite prepare_body_unfold, Hbase, Hpre.
    rewrite (prepare_loop_OK (datasets self) [] [] (set_base b' self) t0 caches);
      rewrite ?app_nil_r; try done.
    unfold outcome, final_state. simpl. split; [done|]. split; [|done].
    apply dict_keys_cached. by eapply Forall2_length.
  - intros Hpre. rewrite prepare_body_unfold, Hpre.
    destruct (Stage_prepare env (base self)) as [b'|e]; simpl; [|done].
    split; [done|]. intros b'' _. done.
Qed.


(** Building a cache from a cache whose transform was taken off: nothing is
    read from an empty one; a non-empty one fails at index 0. *)
Lemma preloaded_Cache (c : PreloadedDataset sample label) :
  preloaded (Cache c) =
    match data c with
    | [] => OK {| transform := transform c; data := [] |}
    | _ :: _ => Raise TypeError
    end.
Proof.
  unfold PreloadedDataset_init. destruct c as [tr [|[x y] l]]; [done|].
  cbn [set_transform get_transform dataset_obj_VisionDataset
       PreloadedDataset_VisionDataset len PreloadedDataset_len data
       length seq append_items getitem].
  unfold PreloadedDataset_getitem. cbn [data transform].
  unfold list_getitem. cbn [length]. zcase. done.
Qed.

Lemma prepare_OK_inv self t self' t' :
  dict_wf (datasets self) →
  py_bool (preload self) = true →
  prepare env self t = (OK tt, self', t') →
  ∃ caches,
    length caches = length (datasets self) ∧
    preload self' = preload self ∧
    datasets self' = cached (datasets self) caches.
Proof.
  intros Hwf Hpre Hrun.
  assert (outcome (prepare env self t) = OK tt) as Hout by by rewrite Hrun.
  assert (final_state (prepare env self t) = self') as Hfin by by rewrite Hrun.
  clear Hrun. unfold prepare in Hout, Hfin.
  destruct (log_phase_body "prepare" (prepare_body env) self t)
    as (t0 & Hout' & Hfin').
  rewrite Hout' in Hout. rewrite Hfin' in Hfin. clear Hout' Hfin'.
  destruct (Stage_prepare env (base self)) as [b'|e] eqn:Hbase.
  - destruct (prepare_body_cases self t0 b' Hwf Hpre Hbase)
      as [(caches & Hall & Hbody)|(? & ? & ? & ? & ? & ? & _ & _ & _ & Hbody)];
      rewrite Hbody in Hout, Hfin; [|done].
    exists caches. subst self'. split; [|done].
    symmetry. by eapply Forall2_length.
  - rewrite prepare_body_unfold, Hbase in Hout. done.
Qed.

(** A second pass of the loop over entries that are caches fails as soon
    as it meets one that is not empty. *)
Lemma first_nonempty_cache todo (caches : list (PreloadedDataset sample label)) :
  length caches = length todo →
  (∃ key d, (key, d) ∈ cached todo caches ∧ (0 < len d)%nat) →
  ∃ done key d post caches',
    cached todo caches = done ++ (key, d) :: post ∧
    Forall2 (λ kv c, preloaded kv.2 = OK c) done caches' ∧
    preloaded d = Raise TypeError.
Proof.
  revert caches. induction todo as [|[k v] todo IH]; intros [|c caches] Hlen;
    try done.
  { intros (key & d & Hin & _). by apply elem_of_nil in Hin. }
  injection Hlen as Hlen. cbn [zip_with fst].
  intros (key & d & Hin & Hpos).
  destruct (data c) as [|it l] eqn:Hdata.
  - apply elem_of_cons in Hin as [[= -> ->]|Hin].
    { exfalso. cbn in Hpos. unfold PreloadedDataset_len in Hpos.
      rewrite Hdata in Hpos. simpl in Hpos. lia. }
    destruct (IH caches Hlen) as (done & key' & d' & post & caches' & Heq & Hall & He).
    { by exists key, d. }
    exists ((k, Cache c) :: done), key', d', post,
      ({| transform := transform c; data := [] |} :: caches').
    split; [by rewrite Heq|]. split; [|done].
    constructor; [|done]. cbn [snd]. by rewrite preloaded_Cache, Hdata.
  - exists [], k, (Cache c), (cached todo caches), [].
    split; [done|]. split; [constructor|].
    by rewrite preloaded_Cache, Hdata.
Qed.

(** (C10, as amended) A [PreloadedDataset] built with the default
    transform [None] serves no read: at every index inside
    [0 <= index < len] the read raises [TypeError], the transform being
    called without a test for [None]. And after a call of [prepare] with
    [preload] true has returned, a second call, which takes the transform
    off each cache and reads the cache again to build the next one, raises
    [TypeError] whenever some entry holds at least one item (and the hook
    of the base class returns). *)
Theorem default_transform_serves_no_read :
  (∀ (D : Type) (HD : VisionDataset sample label D) (source : D)
     (cache : PreloadedDataset sample label) (index : Z),
     PreloadedDataset_init source None = OK cache →
     0 ≤ index < Z.of_nat (PreloadedDataset_len cache) →
     PreloadedDataset_getitem cache index = Raise TypeError) ∧
  (∀ self t self' t' b'',
     dict_wf (datasets self) →
     py_bool (preload self) = true →
     prepare env self t = (OK tt, self', t') →
     Stage_prepare env (base self') = OK b'' →
     (∃ key d, dict_getitem (datasets self') key = OK d ∧ (0 < len d)%nat) →
     outcome (prepare env self' t') = Raise TypeError).
Proof.
  split.
  - intros D HD source cache index [HT _]%PreloadedDataset_init_OK Hi.
    rewrite (PreloadedDataset_getitem_None cache index HT).
    unfold PreloadedDataset_len in Hi. by zcase.
  - intros self t self' t' b'' Hwf Hpre Hrun Hbase (key & d & Hd & Hpos).
    destruct (prepare_OK_inv self t self' t' Hwf Hpre Hrun)
      as (caches & Hlen & Hpre' & Hds).
    assert (dict_wf (datasets self')) as Hwf'.
    { unfold dict_wf. by rewrite Hds, dict_keys_cached. }
    destruct (first_nonempty_cache (datasets self) caches Hlen)
      as (done & key' & d' & post & caches' & Heq & Hall & He).
    { exists key, d. split; [|done]. rewrite <-Hds.
      by apply dict_getitem_OK_elem_of. }
    rewrite <-Hds in Heq. unfold prepare.
    destruct (log_phase_body "prepare" (prepare_body env) self' t')
      as (t0 & -> & _).
    rewrite prepare_body_unfold, Hbase, Hpre', Hpre, Heq.
    rewrite (prepare_loop_Raise done [] key' d' post (set_base b'' self') t0
               caches' TypeError); try done.
    simpl. by rewrite <-Heq.
Qed.

End PrepareFacts.

(** ** Construction and batch counts *)

Section InitFacts.
Context {sample label : Type} (env : Env sample label).
Implicit Types (self : TorchVisionDataset sample label) (t : list event)
  (stage_config : gmap string config_entry) (inner : gmap string value).

(** The keys of a comprehension over [xs] are the elements of [xs], each
    once. *)
Lemma dict_comprehension_keys {S V} (f : string → M S V) xs :
  ∀ acc s t d s' t',
    dict_comprehension f xs acc s t = (OK d, s', t') →
    (dict_wf acc → dict_wf d) ∧
    ∀ k, k ∈ dict_keys d ↔ k ∈ dict_keys acc ∨ k ∈ xs.
Proof.
  induction xs as [|x xs IH]; intros acc s t d s' t'; simpl.
  - monad_unfold. intros [= <- <- <-]. split; [done|].
    intros k. rewrite elem_of_nil. tauto.
  - monad_unfold. destruct (f x s t) as [[[v|e] s1] t1]; [|done].
    intros [Hwf Hkeys]%IH. split.
    + intros Hacc. by apply Hwf, dict_wf_setitem.
    + intros k. rewrite Hkeys, elem_of_dict_keys_setitem, elem_of_cons. tauto.
Qed.

(** What a constructor that returned has read from the configuration. *)
Lemma TorchVisionDataset_init_OK stage_config parent t self t' :
  TorchVisionDataset_init env stage_config parent tt t = (OK self, tt, t') →
  ∃ inner xs,
    default (Dict ∅) (stage_config !! "config") = Dict inner ∧
    py_iter (default (VList ["val"]) (inner !! "split")) = OK xs ∧
    preload self = default (VBool false) (inner !! "preload") ∧
    batch_size self = default (VInt 1) (inner !! "batch_size") ∧
    dict_wf (datasets self) ∧
    ∀ k, k ∈ dict_keys (datasets self) ↔ k ∈ xs.
Proof.
  unfold TorchVisionDataset_init, path_exists, call_get_weight.
  monad_unfold. cbv beta.
  destruct (Stage_init env stage_config parent) as [b|e]; [|done].
  destruct (default (Dict ∅) (stage_config !! "config")) as [v|inner];
    [done|].
  cbn [py_get].
  destruct (default VNone (inner !! "dataset_name")) as [|?|?|name|?];
    try done.
  destruct (torchvision_datasets env name) as [cls|]; [|done].
  cbv beta iota.
  set (download := negb (os_path_exists env _)).
  set (root := "data/" +:+ name).
  set (t1 := t ++ [_]).
  intros Hinit. exists inner.
  destruct (is_None (default VNone (inner !! "weights"))).
  - destruct (py_iter (default (VList ["val"]) (inner !! "split")))
      as [xs|e]; [|done].
    destruct (@dict_comprehension (M unit) _ _ _ _ xs [] tt t1)
      as [[[d|e] []] t2] eqn:Hd; [|done].
    injection Hinit as <- <-. exists xs.
    apply dict_comprehension_keys in Hd as [Hwf Hkeys].
    repeat split; try done.
    + apply Hwf. constructor.
    + intros Hk. apply Hkeys in Hk as [Hk|Hk]; [|done].
      by apply elem_of_nil in Hk.
    + intros Hk. apply Hkeys. by right.
  - destruct (get_weight env _) as [w|e]; [|done].
    destruct (py_iter (default (VList ["val"]) (inner !! "split")))
      as [xs|e]; [|done].
    destruct (@dict_comprehension (M unit) _ _ _ _ xs [] tt _)
      as [[[d|e] []] t2] eqn:Hd; [|done].
    injection Hinit as <- <-. exists xs.
    apply dict_comprehension_keys in Hd as [Hwf Hkeys].
    repeat split; try done.
    + apply Hwf. constructor.
    + intros Hk. apply Hkeys in Hk as [Hk|Hk]; [|done].
      by apply elem_of_nil in Hk.
    + intros Hk. apply Hkeys. by right.
Qed.


(** (C5) A configuration without the key [dataset_name]: once the
    constructor of the base class has returned, the constructor raises
    [ValueError("Missing dataset name.")], which is the configuration error
    of the design, and the trace is the one it started with: no file system
    probe, no weights lookup and no dataset instantiation has happened. *)
Theorem init_missing_dataset_name stage_config parent t b inner :
  Stage_init env stage_config parent = OK b →
  default (Dict ∅) (stage_config !! "config") = Dict inner →
  inner !! "dataset_name" = None →
  TorchVisionDataset_init env stage_config parent tt t
    = (Raise (ValueError "Missing dataset name."), tt, t) ∧
  classify (ValueError "Missing dataset name.") = ConfigError.
Proof.
  intros Hbase Hinner Hname. split; [|done].
  unfold TorchVisionDataset_init. monad_unfold. cbv beta.
  rewrite Hbase, Hinner. cbn [py_get]. by rewrite Hname.
Qed.

(** The comprehension over the items of a dictionary whose function
    returns at every value keeps keys and order. *)
Lemma dict_comprehension_items_OK {V W} (f : V → result W) (g : V → W)
    (items : dict V) :
  ∀ acc,
    NoDup (dict_keys acc ++ dict_keys items) →
    Forall (λ kv, f kv.2 = OK (g kv.2)) items →
    dict_comprehension_items f items acc
      = OK (acc ++ ((λ kv, (kv.1, g kv.2)) <$> items)).
Proof.
  induction items as [|[k v] items IH]; intros acc Hnodup Hall; simpl.
  - by rewrite app_nil_r.
  - apply Forall_cons in Hall as [Hv Hall]. cbn [snd] in Hv.
    monad_unfold. rewrite Hv.
    assert (k ∉ dict_keys acc) as Hk.
    { unfold dict_keys in Hnodup. rewrite fmap_cons in Hnodup.
      apply NoDup_app in Hnodup as (_ & Hdisj & _).
      intros Hin. apply (Hdisj k Hin). left. }
    rewrite dict_setitem_fresh by done. rewrite IH; [|..|done].
    + by rewrite <-app_assoc.
    + unfold dict_keys in *. rewrite fmap_app, fmap_cons in *.
      simpl. by rewrite <-app_assoc.
Qed.

Lemma dict_getitem_fmap {V W} (g : V → W) (d : dict V) key :
  dict_getitem ((λ kv, (kv.1, g kv.2)) <$> d) key = g <$> dict_getitem d key.
Proof.
  induction d as [|[k v] d IH]; [done|]. rewrite fmap_cons. simpl.
  by destruct (String.eqb k key).
Qed.

(** [get_num_batches] for an integer [batch_size] other than 0. *)
Lemma get_num_batches_OK self b :
  dict_wf (datasets self) →
  batch_size self = VInt b → b ≠ 0 →
  get_num_batches self
    = OK ((λ kv, (kv.1, Z.of_nat (len kv.2) / b)) <$> datasets self).
Proof.
  intros Hwf Hb Hnz. unfold get_num_batches. rewrite Hb.
  rewrite (dict_comprehension_items_OK _ (λ v, Z.of_nat (len v) / b)).
  - done.
  - done.
  - apply Forall_forall. intros [k v] _. unfold py_floordiv. by zcase.
Qed.

(** (C7) A stage that was constructed, with an integer [batch_size] other
    than 0 (for which the quotient is defined): [get_datasets] has an entry
    for a key exactly when the key is among the requested splits, and no key
    twice; [get_num_batches] returns, with the same keys in the same order;
    and under every split [s] it holds the floor of
    [len(get_datasets()[s]) / batch_size]. *)
Theorem get_num_batches_floor stage_config parent t self t' b :
  TorchVisionDataset_init env stage_config parent tt t = (OK self, tt, t') →
  batch_size self = VInt b →
  b ≠ 0 →
  ∃ inner splits num_batches,
    default (Dict ∅) (stage_config !! "config") = Dict inner ∧
    py_iter (default (VList ["val"]) (inner !! "split")) = OK splits ∧
    NoDup (dict_keys (get_datasets self)) ∧
    (∀ s, s ∈ dict_keys (get_datasets self) ↔ s ∈ splits) ∧
    get_num_batches self = OK num_batches ∧
    dict_keys num_batches = dict_keys (get_datasets self) ∧
    ∀ s d, dict_getitem (get_datasets self) s = OK d →
      dict_getitem num_batches s = OK (Z.of_nat (len d) / b).
Proof.
  intros Hinit Hb Hnz.
  destruct (TorchVisionDataset_init_OK _ _ _ _ _ Hinit)
    as (inner & splits & Hinner & Hsplit & _ & _ & Hwf & Hkeys).
  exists inner, splits,
    ((λ kv, (kv.1, Z.of_nat (len kv.2) / b)) <$> datasets self).
  split; [done|]. split; [done|]. split; [done|]. split; [done|].
  split; [by apply get_num_batches_OK|]. split.
  - unfold dict_keys, get_datasets. rewrite <-list_fmap_compose.
    by apply list_fmap_ext.
  - intros s d Hd. unfold get_datasets in Hd.
    by rewrite (dict_getitem_fmap (λ v, Z.of_nat (len v) / b)), Hd.
Qed.

(** The constructor reads [batch_size] last and does nothing with it but
    store it: two configurations that differ in [batch_size] only, and that
    the constructor of the base class treats alike, have the same outcome
    and the same effects, up to the value stored. *)
Lemma TorchVisionDataset_init_ignores_batch_size stage_config stage_config'
    parent t inner inner' :
  Stage_init env stage_config' parent = Stage_init env stage_config parent →
  default (Dict ∅) (stage_config !! "config") = Dict inner →
  default (Dict ∅) (stage_config' !! "config") = Dict inner' →
  (∀ key, key ≠ "batch_size" → inner' !! key = inner !! key) →
  outcome (TorchVisionDataset_init env stage_config' parent tt t)
    = set_batch_size (default (VInt 1) (inner' !! "batch_size"))
        <$> outcome (TorchVisionDataset_init env stage_config parent tt t) ∧
  trace (TorchVisionDataset_init env stage_config' parent tt t)
    = trace (TorchVisionDataset_init env stage_config parent tt t).
Proof.
  intros Hbase Hinner Hinner' Hagree.
  unfold TorchVisionDataset_init, path_exists, call_get_weight.
  monad_unfold. cbv beta.
  rewrite Hbase, Hinner, Hinner'.
  destruct (Stage_init env stage_config parent) as [b|e]; [|done].
  cbn [py_get].
  rewrite !(Hagree "preload"), !(Hagree "dataset_name"), !(Hagree "split"),
    !(Hagree "weights") by done.
  destruct (default VNone (inner !! "dataset_name")) as [|?|?|name|?];
    try done.
  destruct (torchvision_datasets env name) as [cls|]; [|done].
  cbv beta iota.
  destruct (is_None (default VNone (inner !! "weights"))).
  - destruct (py_iter (default (VList ["val"]) (inner !! "split")))
      as [xs|e]; [|done].
    by destruct (@dict_comprehension (M unit) _ _ _ _ xs [] tt _)
      as [[[d|e] []] t2].
  - destruct (get_weight env _) as [w|e]; [|done].
    destruct (py_iter (default (VList ["val"]) (inner !! "split")))
      as [xs|e]; [|done].
    by destruct (@dict_comprehension (M unit) _ _ _ _ xs [] tt _)
      as [[[d|e] []] t2].
Qed.

(** (C8, as amended) [batch_size] is the value of the configuration key,
    1 when the key is absent, stored as it is. The constructor never
    validates it: whatever value a configuration gives to [batch_size], be
    it negative, zero or no number at all, the constructor has the outcome
    and the effects it has without it, so that no error is ever raised for
    [batch_size]. [get_num_batches] with an integer [batch_size]: for 0 and
    at least one split it raises [ZeroDivisionError]; for any other integer,
    negative ones included, it returns the floor quotients. *)
Theorem batch_size_default_and_unchecked stage_config parent t inner :
  default (Dict ∅) (stage_config !! "config") = Dict inner →
  (∀ self t',
     TorchVisionDataset_init env stage_config parent tt t = (OK self, tt, t') →
     batch_size self = default (VInt 1) (inner !! "batch_size") ∧
     (inner !! "batch_size" = None → batch_size self = VInt 1) ∧
     (batch_size self = VInt 0 → datasets self ≠ [] →
        get_num_batches self = Raise ZeroDivisionError ∧
        classify ZeroDivisionError ≠ ConfigError) ∧
     (∀ b, batch_size self = VInt b → b ≠ 0 →
        get_num_batches self
          = OK ((λ kv, (kv.1, Z.of_nat (len kv.2) / b)) <$> datasets self))) ∧
  (∀ stage_config' inner',
     Stage_init env stage_config' parent = Stage_init env stage_config parent →
     default (Dict ∅) (stage_config' !! "config") = Dict inner' →
     (∀ key, key ≠ "batch_size" → inner' !! key = inner !! key) →
     outcome (TorchVisionDataset_init env stage_config' parent tt t)
       = set_batch_size (default (VInt 1) (inner' !! "batch_size"))
           <$> outcome (TorchVisionDataset_init env stage_config parent tt t) ∧
     trace (TorchVisionDataset_init env stage_config' parent tt t)
       = trace (TorchVisionDataset_init env stage_config parent tt t)).
Proof.
  intros Hinner. split.
  - intros self t' Hinit.
    destruct (TorchVisionDataset_init_OK _ _ _ _ _ Hinit)
      as (inner0 & splits & Hinner0 & _ & _ & Hbatch & Hwf & _).
    rewrite Hinner in Hinner0. injection Hinner0 as <-.
    split; [done|]. split; [|split].
    + intros Hnone. by rewrite Hbatch, Hnone.
    + intros Hzero Hne. split; [|done]. unfold get_num_batches.
      destruct (datasets self) as [|[k v] rest]; [done|].
      simpl. monad_unfold. by rewrite Hzero.
    + intros b Hb Hnz. by apply get_num_batches_OK.
  - intros stage_config' inner' Hbase Hinner' Hagree.
    by apply (TorchVisionDataset_init_ignores_batch_size
                stage_config stage_config' parent t inner inner').
Qed.

End InitFacts.

(** ** The run loop *)

Section RunFacts.
Context {sample label payload : Type}.
Implicit Types (self : TorchVisionDataset sample label)
  (w : queues payload) (t : list event) (r : queue_record payload)
  (rs : list (queue_record payload)) (qs : list (list (queue_record payload))).

(** The events of one iteration that forwards a record. *)
Local Abbreviation run_events self :=
  (if disable_logs (base self) then []
   else [EvLog (parent_name (base self)) (name (base self)) "run" "start";
         EvLog (parent_name (base self)) (name (base self)) "run" "end"]).

(** A fetch takes exactly the head of every queue. *)
Lemma take_heads_Some qs rs qs' :
  take_heads qs = Some (rs, qs') → qs = zip_with cons rs qs' ∧ length rs = length qs'.
Proof.
  revert rs qs'. induction qs as [|q qs IH]; intros rs qs'; simpl.
  - by intros [= <- <-].
  - destruct q as [|r q']; [done|].
    destruct (take_heads qs) as [[rs0 qs0]|]; [|done].
    intros [= <- <-]. destruct (IH rs0 qs0 eq_refl) as [-> Hlen].
    simpl. by rewrite Hlen.
Qed.

Lemma values_imap rs (f : nat → nat) :
  map snd (imap (λ i r, (f i, r)) rs) = rs.
Proof.
  revert f. induction rs as [|r rs IH]; intros f; simpl; [done|].
  f_equal. apply (IH (f ∘ S)).
Qed.

(** One iteration on a batch that holds the sentinel. *)
Lemma run_done fuel self w t first others qs' :
  take_heads (input_queues w) = Some (first :: others, qs') →
  existsb is_sentinel (first :: others) = true →
  run (S fuel) self w t =
    (OK Terminated,
     {| input_queues := qs';
        output_queues := map (λ q, q ++ [first]) (output_queues w) |}, t).
Proof.
  intros Hheads Hdone. cbn [run]. unfold get_next_from_queues, push_to_output.
  monad_unfold. cbv beta. rewrite Hheads. cbv beta iota.
  unfold is_done. rewrite (values_imap _ id), Hdone. done.
Qed.

(** One iteration on a batch without the sentinel. *)
Lemma run_forward fuel self w t first others qs' :
  take_heads (input_queues w) = Some (first :: others, qs') →
  existsb is_sentinel (first :: others) = false →
  run (S fuel) self w t =
    run fuel self
      {| input_queues := qs';
         output_queues := map (λ q, q ++ [first]) (output_queues w) |}
      (t ++ run_events self).
Proof.
  intros Hheads Hdone. cbn [run].
  unfold get_next_from_queues, push_to_output, log_phase_single.
  monad_unfold. cbv beta. rewrite Hheads. cbv beta iota.
  unfold is_done. rewrite (values_imap _ id), Hdone.
  destruct (disable_logs (base self)); cbn [negb]; cbv beta iota.
  - by rewrite app_nil_r.
  - cbn [list_getitem]. by rewrite <-app_assoc.
Qed.

(** (C1, as amended) When the records fetched from the input queues, one
    from each, include the termination sentinel, whichever queue it came
    from, [run] pushes the record fetched from the first queue to every
    output queue and stops: the loop is left in this iteration. The record
    pushed is the sentinel exactly when the first queue gave it. The records
    fetched from the other queues are taken off their queues and dropped;
    what was behind them stays, and nothing is logged. *)
Theorem run_stops_on_sentinel fuel self w t rs qs' :
  take_heads (input_queues w) = Some (rs, qs') →
  existsb is_sentinel rs = true →
  ∃ first others,
    rs = first :: others ∧
    input_queues w = zip_with cons rs qs' ∧
    run (S fuel) self w t =
      (OK Terminated,
       {| input_queues := qs';
          output_queues := map (λ q, q ++ [first]) (output_queues w) |}, t).
Proof.
  intros Hheads Hdone. destruct rs as [|first others]; [done|].
  exists first, others. split; [done|]. split.
  - by apply take_heads_Some in Hheads as [-> _].
  - by apply (run_done fuel self w t first others qs').
Qed.

(** A single input queue is forwarded in order up to its first sentinel,
    which is forwarded too and ends the loop. *)
Lemma run_single_queue self (ps : list payload) :
  ∀ rest outs t fuel,
    (length ps < fuel)%nat →
    run fuel self
      {| input_queues := [map Payload ps ++ Sentinel :: rest];
         output_queues := outs |} t =
    (OK Terminated,
     {| input_queues := [rest];
        output_queues := map (λ q, q ++ map Payload ps ++ [Sentinel]) outs |},
     t ++ flat_map (λ _, run_events self) ps).
Proof.
  induction ps as [|p ps IH]; intros rest outs t [|fuel] Hfuel;
    try (simpl in Hfuel; lia).
  - rewrite (run_done fuel self _ t Sentinel [] [rest]) by done.
    simpl. by rewrite app_nil_r.
  - rewrite (run_forward fuel self _ t (Payload p) []
               [map Payload ps ++ Sentinel :: rest]) by done.
    cbn [output_queues]. rewrite IH by (simpl in Hfuel; lia).
    rewrite map_map. cbn [flat_map]. rewrite <-app_assoc.
    do 3 f_equal. apply map_ext. intros q. by rewrite <-app_assoc.
Qed.

(** (C3) A single input queue holding [A, B, sentinel]: [run] ends with
    the loop left, the input queue empty, and [A, B, sentinel], in this
    order, appended to every output queue; an output queue that was empty
    holds exactly [A, B, sentinel]. *)
Theorem run_forwards_in_order self (A B : payload) outs t fuel :
  (3 ≤ fuel)%nat →
  ∃ t',
    run fuel self
      {| input_queues := [[Payload A; Payload B; Sentinel]];
         output_queues := outs |} t =
    (OK Terminated,
     {| input_queues := [[]];
        output_queues :=
          map (λ q, q ++ [Payload A; Payload B; Sentinel]) outs |}, t').
Proof.
  intros Hfuel. eexists.
  apply (run_single_queue self [A; B] [] outs t fuel). simpl. lia.
Qed.

(** The loop needs at most one iteration more than the first queue has
    records: with that many allowed, the model never stops for lack of
    iterations. *)
Lemma run_enough_fuel self fuel :
  ∀ w t,
    (length (hd [] (input_queues w)) < fuel)%nat →
    outcome (run fuel self w t) ≠ OK OutOfFuel.
Proof.
  induction fuel as [|fuel IH]; intros w t Hfuel; [lia|].
  destruct (take_heads (input_queues w)) as [[rs qs']|] eqn:Hheads.
  - destruct rs as [|first others].
    + cbn [run]. unfold get_next_from_queues, log_phase_single.
      monad_unfold. cbv beta. rewrite Hheads. cbv beta iota. cbn.
      by destruct (disable_logs (base self)).
    + destruct (existsb is_sentinel (first :: others)) eqn:Hdone.
      * by rewrite (run_done fuel self w t first others qs').
      * rewrite (run_forward fuel self w t first others qs') by done.
        apply IH. cbn [input_queues].
        apply take_heads_Some in Hheads as [Hqs Hlen]. rewrite Hqs in Hfuel.
        destruct qs' as [|q qs']; simpl in *; lia.
  - cbn [run]. unfold get_next_from_queues. monad_unfold. cbv beta.
    by rewrite Hheads.
Qed.

End RunFacts.

(** * The properties on the concrete pipeline *)

(** The constructor on the configuration
    [{"config": {"dataset_name": "Example", "batch_size": 4}}]. *)
Lemma example_init_batch4 :
  TorchVisionDataset_init example_env
    (example_config [("dataset_name", VStr "Example"); ("batch_size", VInt 4)])
    "pipeline" tt []
  = (OK (example_self [("val", 10%nat)] (VBool false) (VInt 4)), tt,
     [EvPathExists "/work/data/Example";
      EvDataset "data/Example" "val" true]).
Proof. vm_compute. reflexivity. Defined.

(** C2 on the collection of two items, with the successor as transform. *)
Lemma preload_equivalence_witness :
  (∀ idx : nat, (idx < len example_source)%nat →
     is_OK (getitem example_source (Z.of_nat idx)) = true) ∧
  ∃ cache,
    PreloadedDataset_init example_source (Some S) = OK cache ∧
    transform cache = Some S ∧
    PreloadedDataset_len cache = len example_source ∧
    Forall2 (λ idx it, getitem example_source (Z.of_nat idx) = OK it)
      (seq 0 (len example_source)) (data cache) ∧
    ∀ (i : Z) (sample_i label_i : nat),
      0 ≤ i < Z.of_nat (len example_source) →
      getitem example_source i = OK (sample_i, label_i) →
      data cache !! Z.to_nat i = Some (sample_i, label_i) ∧
      PreloadedDataset_getitem cache i = OK (S sample_i, label_i).
Proof.
  assert (∀ idx : nat, (idx < len example_source)%nat →
            is_OK (getitem example_source (Z.of_nat idx)) = true) as Hread.
  { intros [|[|idx]] Hidx; [reflexivity|reflexivity|].
    simpl in Hidx. lia. }
  split; [exact Hread|].
  exact (PreloadedDataset_preload_equivalence example_source S Hread).
Defined.

(** The constructor on a configuration that asks for the split ["empty"]
    and for preloading. *)
Lemma example_init_empty_split :
  TorchVisionDataset_init example_env
    (example_config [("dataset_name", VStr "Example");
                     ("split", VList ["empty"]); ("preload", VBool true)])
    "pipeline" tt []
  = (OK (example_self [("empty", 0%nat)] (VBool true) (VInt 1)), tt,
     [EvPathExists "/work/data/Example";
      EvDataset "data/Example" "empty" true]).
Proof. vm_compute. reflexivity. Defined.

(** The first call of [prepare] on a stage with one split of ten items. *)
Lemma example_prepare_val :
  prepare example_env (example_self [("val", 10%nat)] (VBool true) (VInt 1)) []
  = (OK tt, example_prepared [("val", 10%nat)] (VBool true) (VInt 1),
     example_prepare_log).
Proof. vm_compute. reflexivity. Defined.

Lemma example_dict_wf (splits : list (string * nat)) preload batch_size :
  NoDup splits.*1 →
  dict_wf (datasets (example_self splits preload batch_size)).
Proof.
  unfold dict_wf, dict_keys, example_self. cbn [datasets].
  rewrite <-list_fmap_compose. intros Hsplits.
  erewrite list_fmap_ext; [exact Hsplits|]. by intros i [k n] _.
Defined.

(** C9: in a cache of two items, index -1 lies outside [0 <= index < 2],
    and the read returns the last item, transformed, instead of raising. *)
Lemma getitem_negative_index_counterexample :
  ¬ (0 ≤ -1 < Z.of_nat (PreloadedDataset_len example_cache)) ∧
  PreloadedDataset_getitem example_cache (-1) = OK (11%nat, 1%nat) ∧
  PreloadedDataset_getitem example_cache (-1) ≠ Raise IndexError.
Proof. split; [simpl; lia|]. split; [reflexivity|discriminate]. Qed.

(** C9, as amended, on the cache of two items at index -1. *)
Lemma getitem_by_range_witness :
  transform example_cache = Some S ∧
  (-1 < - 2 ∨ 2 ≤ -1 →
     PreloadedDataset_getitem example_cache (-1) = Raise IndexError) ∧
  (0 ≤ -1 < 2 →
     ∃ x y, data example_cache !! Z.to_nat (-1) = Some (x, y) ∧
       PreloadedDataset_getitem example_cache (-1) = OK (S x, y)) ∧
  (- 2 ≤ -1 < 0 →
     ∃ x y, data example_cache !! Z.to_nat (-1 + 2) = Some (x, y) ∧
       PreloadedDataset_getitem example_cache (-1) = OK (S x, y) ∧
       PreloadedDataset_getitem example_cache (-1) =
         PreloadedDataset_getitem example_cache (-1 + 2)).
Proof.
  split; [reflexivity|].
  exact (PreloadedDataset_getitem_by_range example_cache S (-1) eq_refl).
Defined.

(** C10: with the split ["empty"] the cache is empty, and the second call
    of [prepare] returns. *)
Lemma second_prepare_empty_counterexample :
  TorchVisionDataset_init example_env
    (example_config [("dataset_name", VStr "Example");
                     ("split", VList ["empty"]); ("preload", VBool true)])
    "pipeline" tt []
  = (OK (example_self [("empty", 0%nat)] (VBool true) (VInt 1)), tt,
     [EvPathExists "/work/data/Example";
      EvDataset "data/Example" "empty" true]) ∧
  prepare example_env
    (example_self [("empty", 0%nat)] (VBool true) (VInt 1)) []
  = (OK tt, example_prepared [("empty", 0%nat)] (VBool true) (VInt 1),
     example_prepare_log) ∧
  outcome (prepare example_env
             (example_prepared [("empty", 0%nat)] (VBool true) (VInt 1))
             example_prepare_log) = OK tt ∧
  outcome (prepare example_env
             (example_prepared [("empty", 0%nat)] (VBool true) (VInt 1))
             example_prepare_log) ≠ Raise TypeError.
Proof.
  split; [exact example_init_empty_split|].
  split; [vm_compute; reflexivity|].
  split; [vm_compute; reflexivity|]. vm_compute. discriminate.
Qed.

(** C10, as amended: a cache of two items built without a transform
    raises [TypeError] at index 1, and the second [prepare] of a stage with
    a cache of ten items raises [TypeError]. *)
Lemma default_transform_witness :
  (PreloadedDataset_init example_source None
     = OK {| transform := None; data := [(0, 0); (10, 1)]%nat |} ∧
   0 ≤ 1 < Z.of_nat
             (PreloadedDataset_len
                {| transform := None; data := [(0, 0); (10, 1)]%nat |}) ∧
   PreloadedDataset_getitem
     {| transform := None; data := [(0, 0); (10, 1)]%nat |} 1
     = Raise TypeError) ∧
  (dict_wf (datasets (example_self [("val", 10%nat)] (VBool true) (VInt 1))) ∧
   py_bool (preload (example_self [("val", 10%nat)] (VBool true) (VInt 1)))
     = true ∧
   prepare example_env
     (example_self [("val", 10%nat)] (VBool true) (VInt 1)) []
   = (OK tt, example_prepared [("val", 10%nat)] (VBool true) (VInt 1),
      example_prepare_log) ∧
   (∃ key d,
      dict_getitem
        (datasets (example_prepared [("val", 10%nat)] (VBool true) (VInt 1)))
        key = OK d ∧ (0 < len d)%nat) ∧
   outcome (prepare example_env
              (example_prepared [("val", 10%nat)] (VBool true) (VInt 1))
              example_prepare_log) = Raise TypeError).
Proof.
  assert (dict_wf
            (datasets (example_self [("val", 10%nat)] (VBool true) (VInt 1))))
    as Hwf.
  { apply example_dict_wf. apply (bool_decide_unpack _). vm_compute. exact I. }
  assert (∃ key d,
      dict_getitem
        (datasets (example_prepared [("val", 10%nat)] (VBool true) (VInt 1)))
        key = OK d ∧ (0 < len d)%nat) as Hnonempty.
  { exists "val", (Cache (example_preloaded 10)).
    split; [reflexivity|]. cbn. lia. }
  split.
  - split; [reflexivity|].
    assert (0 ≤ 1 < Z.of_nat
              (PreloadedDataset_len
                 {| transform := None; data := [(0, 0); (10, 1)]%nat |}))
      as Hindex.
    { unfold PreloadedDataset_len. cbn [data length]. lia. }
    split; [exact Hindex|].
    exact (proj1 (default_transform_serves_no_read example_env)
             _ _ example_source _ 1 eq_refl Hindex).
  - split; [exact Hwf|]. split; [reflexivity|].
    split; [exact example_prepare_val|]. split; [exact Hnonempty|].
    exact (proj2 (default_transform_serves_no_read example_env)
             _ [] _ _ _ Hwf eq_refl example_prepare_val eq_refl Hnonempty).
Defined.

(** C4 on a stage with the splits ["train"] and ["val"] and [preload]
    true, and on a stage with [preload] false. *)
Lemma prepare_replaces_entries_witness :
  dict_wf (datasets (example_self [("train", 10%nat); ("val", 10%nat)]
                       (VBool true) (VInt 1))) ∧
  outcome (prepare example_env
             (example_self [("train", 10%nat); ("val", 10%nat)]
                (VBool true) (VInt 1)) []) = OK tt ∧
  datasets (final_state
              (prepare example_env
                 (example_self [("train", 10%nat); ("val", 10%nat)]
                    (VBool true) (VInt 1)) []))
    = [("train", Cache (example_preloaded 10));
       ("val", Cache (example_preloaded 10))] ∧
  datasets (final_state
              (prepare example_env
                 (example_self [("val", 10%nat)] (VBool false) (VInt 4)) []))
    = datasets (example_self [("val", 10%nat)] (VBool false) (VInt 4)).
Proof.
  assert (dict_wf (datasets (example_self [("train", 10%nat); ("val", 10%nat)]
                               (VBool true) (VInt 1)))) as Hwf.
  { apply example_dict_wf. apply (bool_decide_unpack _). vm_compute. exact I. }
  assert (dict_wf (datasets (example_self [("val", 10%nat)]
                               (VBool false) (VInt 4)))) as Hwf'.
  { apply example_dict_wf. apply (bool_decide_unpack _). vm_compute. exact I. }
  split; [exact Hwf|].
  destruct (proj1 (prepare_replaces_entries_by_caches example_env _ [] Hwf)
              eq_refl
              {| name := "dataset"; parent_name := "pipeline";
                 disable_logs := false |}
              [example_preloaded 10; example_preloaded 10] eq_refl)
    as (Hout & _ & Hdatasets).
  { constructor; [vm_compute; reflexivity|].
    constructor; [vm_compute; reflexivity|]. constructor. }
  split; [exact Hout|]. split; [exact Hdatasets|].
  exact (proj1 (proj2 (prepare_replaces_entries_by_caches example_env _ []
                         Hwf') eq_refl)).
Defined.

(** C5 on the configuration [{"config": {"batch_size": 4}}]. *)
Lemma init_missing_dataset_name_witness :
  Stage_init example_env (example_config [("batch_size", VInt 4)]) "pipeline"
    = OK {| name := "dataset"; parent_name := "pipeline";
            disable_logs := false |} ∧
  default (Dict ∅) (example_config [("batch_size", VInt 4)] !! "config")
    = Dict (list_to_map [("batch_size", VInt 4)]) ∧
  (list_to_map [("batch_size", VInt 4)] : gmap string value)
    !! "dataset_name" = None ∧
  TorchVisionDataset_init example_env
    (example_config [("batch_size", VInt 4)]) "pipeline" tt []
    = (Raise (ValueError "Missing dataset name."), tt, []) ∧
  classify (ValueError "Missing dataset name.") = ConfigError.
Proof.
  split; [reflexivity|]. split; [vm_compute; reflexivity|].
  split; [vm_compute; reflexivity|].
  apply (init_missing_dataset_name example_env _ "pipeline" []
           {| name := "dataset"; parent_name := "pipeline";
              disable_logs := false |}
           (list_to_map [("batch_size", VInt 4)]));
    [reflexivity|vm_compute; reflexivity|vm_compute; reflexivity].
Defined.

(** C7 on the stage built for ["Example"] with [batch_size] 4. *)
Lemma get_num_batches_floor_witness :
  TorchVisionDataset_init example_env
    (example_config [("dataset_name", VStr "Example"); ("batch_size", VInt 4)])
    "pipeline" tt []
  = (OK (example_self [("val", 10%nat)] (VBool false) (VInt 4)), tt,
     [EvPathExists "/work/data/Example";
      EvDataset "data/Example" "val" true]) ∧
  batch_size (example_self [("val", 10%nat)] (VBool false) (VInt 4)) = VInt 4 ∧
  4 ≠ 0 ∧
  ∃ inner splits num_batches,
    default (Dict ∅)
      (example_config [("dataset_name", VStr "Example");
                       ("batch_size", VInt 4)] !! "config") = Dict inner ∧
    py_iter (default (VList ["val"]) (inner !! "split")) = OK splits ∧
    NoDup (dict_keys (get_datasets
             (example_self [("val", 10%nat)] (VBool false) (VInt 4)))) ∧
    (∀ s, s ∈ dict_keys (get_datasets
                 (example_self [("val", 10%nat)] (VBool false) (VInt 4)))
          ↔ s ∈ splits) ∧
    get_num_batches (example_self [("val", 10%nat)] (VBool false) (VInt 4))
      = OK num_batches ∧
    dict_keys num_batches
      = dict_keys (get_datasets
          (example_self [("val", 10%nat)] (VBool false) (VInt 4))) ∧
    ∀ s d,
      dict_getitem (get_datasets
        (example_self [("val", 10%nat)] (VBool false) (VInt 4))) s = OK d →
      dict_getitem num_batches s = OK (Z.of_nat (len d) / 4).
Proof.
  split; [exact example_init_batch4|]. split; [reflexivity|].
  split; [lia|].
  apply (get_num_batches_floor example_env _ "pipeline" [] _ _ 4
           example_init_batch4 eq_refl).
  lia.
Defined.

(** The end-to-end scenario of the design: ten samples, [batch_size] 4. *)
Lemma example_num_batches :
  get_num_batches (example_self [("val", 10%nat)] (VBool false) (VInt 4))
    = OK [("val", 2)].
Proof. reflexivity. Qed.

(** C8: [batch_size] -2 is no positive integer; the constructor returns
    and [get_num_batches] computes a count, -5. With [batch_size] 0 the
    failure is a [ZeroDivisionError]. *)
Lemma negative_batch_size_counterexample :
  TorchVisionDataset_init example_env
    (example_config [("dataset_name", VStr "Example");
                     ("batch_size", VInt (-2))])
    "pipeline" tt []
  = (OK (example_self [("val", 10%nat)] (VBool false) (VInt (-2))), tt,
     [EvPathExists "/work/data/Example";
      EvDataset "data/Example" "val" true]) ∧
  get_num_batches (example_self [("val", 10%nat)] (VBool false) (VInt (-2)))
    = OK [("val", -5)] ∧
  get_num_batches (example_self [("val", 10%nat)] (VBool false) (VInt 0))
    = Raise ZeroDivisionError ∧
  classify ZeroDivisionError ≠ ConfigError.
Proof.
  split; [vm_compute; reflexivity|]. split; [reflexivity|].
  split; [reflexivity|discriminate].
Qed.

(** The constructor on a configuration without [batch_size]. *)
Lemma example_init_default_batch_size :
  TorchVisionDataset_init example_env
    (example_config [("dataset_name", VStr "Example")]) "pipeline" tt []
  = (OK (example_self [("val", 10%nat)] (VBool false) (VInt 1)), tt,
     [EvPathExists "/work/data/Example";
      EvDataset "data/Example" "val" true]).
Proof. vm_compute. reflexivity. Defined.

(** C8, as amended: the configuration without [batch_size] stores 1, and
    the configurations that set [batch_size] to the string ["many"] or to
    -2 construct the same stage with these values stored. *)
Lemma batch_size_default_witness :
  default (Dict ∅)
    (example_config [("dataset_name", VStr "Example")] !! "config")
    = Dict (list_to_map [("dataset_name", VStr "Example")]) ∧
  batch_size (example_self [("val", 10%nat)] (VBool false) (VInt 1))
    = VInt 1 ∧
  outcome (TorchVisionDataset_init example_env
             (example_config [("batch_size", VStr "many");
                              ("dataset_name", VStr "Example")])
             "pipeline" tt [])
    = OK (example_self [("val", 10%nat)] (VBool false) (VStr "many")) ∧
  outcome (TorchVisionDataset_init example_env
             (example_config [("batch_size", VInt (-2));
                              ("dataset_name", VStr "Example")])
             "pipeline" tt [])
    = OK (example_self [("val", 10%nat)] (VBool false) (VInt (-2))) ∧
  trace (TorchVisionDataset_init example_env
           (example_config [("batch_size", VInt (-2));
                            ("dataset_name", VStr "Example")])
           "pipeline" tt [])
    = [EvPathExists "/work/data/Example"; EvDataset "data/Example" "val" true].
Proof.
  assert (default (Dict ∅)
            (example_config [("dataset_name", VStr "Example")] !! "config")
          = Dict (list_to_map [("dataset_name", VStr "Example")])) as Hinner.
  { vm_compute. reflexivity. }
  destruct (batch_size_default_and_unchecked example_env
              (example_config [("dataset_name", VStr "Example")]) "pipeline"
              [] (list_to_map [("dataset_name", VStr "Example")]) Hinner)
    as [Hstored Hignored].
  destruct (Hstored _ _ example_init_default_batch_size) as (_ & Hdefault & _).
  assert (∀ v key, key ≠ "batch_size" →
            (<["batch_size" := v]>
               (list_to_map [("dataset_name", VStr "Example")])
               : gmap string value) !! key
            = (list_to_map [("dataset_name", VStr "Example")]
                 : gmap string value) !! key) as Hagree.
  { intros v key Hkey. apply lookup_insert_ne. congruence. }
  destruct (Hignored
              (example_config [("batch_size", VStr "many");
                               ("dataset_name", VStr "Example")])
              (<["batch_size" := VStr "many"]>
                 (list_to_map [("dataset_name", VStr "Example")]))
              eq_refl) as [Hmany _];
    [vm_compute; reflexivity|apply Hagree|].
  destruct (Hignored
              (example_config [("batch_size", VInt (-2));
                               ("dataset_name", VStr "Example")])
              (<["batch_size" := VInt (-2)]>
                 (list_to_map [("dataset_name", VStr "Example")]))
              eq_refl) as [Hneg Htrace];
    [vm_compute; reflexivity|apply Hagree|].
  split; [exact Hinner|]. split; [apply Hdefault; vm_compute; reflexivity|].
  split; [|split].
  - rewrite Hmany, example_init_default_batch_size. vm_compute. reflexivity.
  - rewrite Hneg, example_init_default_batch_size. vm_compute. reflexivity.
  - rewrite Htrace, example_init_default_batch_size. reflexivity.
Defined.

(** C1: the first fetch takes a payload from the first queue and the
    sentinel from the second; what is pushed is the payload, and no
    sentinel reaches the output. *)
Lemma run_sentinel_in_second_queue_counterexample :
  take_heads (input_queues example_queues)
    = Some ([Payload 1%nat; Sentinel], [[]; [Payload 9%nat]]) ∧
  existsb is_sentinel [Payload 1%nat; Sentinel] = true ∧
  run 1 (example_self [("val", 10%nat)] (VBool false) (VInt 1))
    example_queues []
  = (OK Terminated,
     {| input_queues := [[]; [Payload 9%nat]];
        output_queues := [[Payload 1%nat]] |}, []) ∧
  (Sentinel : queue_record nat) ∉ [Payload 1%nat].
Proof.
  split; [reflexivity|]. split; [reflexivity|]. split; [reflexivity|].
  intros [Heq|Hin]%elem_of_cons; [discriminate|]. by apply elem_of_nil in Hin.
Qed.

(** C1, as amended, on the two queues above. *)
Lemma run_stops_on_sentinel_witness :
  take_heads (input_queues example_queues)
    = Some ([Payload 1%nat; Sentinel], [[]; [Payload 9%nat]]) ∧
  existsb is_sentinel [Payload 1%nat; Sentinel] = true ∧
  ∃ first others,
    [Payload 1%nat; Sentinel] = first :: others ∧
    input_queues example_queues
      = zip_with cons [Payload 1%nat; Sentinel] [[]; [Payload 9%nat]] ∧
    run 1 (example_self [("val", 10%nat)] (VBool false) (VInt 1))
      example_queues []
    = (OK Terminated,
       {| input_queues := [[]; [Payload 9%nat]];
          output_queues :=
            map (λ q, q ++ [first]) (output_queues example_queues) |}, []).
Proof.
  split; [reflexivity|]. split; [reflexivity|].
  exact (run_stops_on_sentinel 0
           (example_self [("val", 10%nat)] (VBool false) (VInt 1))
           example_queues [] _ _ eq_refl eq_refl).
Defined.

(** C3 with the payloads 1 and 2 and one empty output queue. *)
Lemma run_forwards_in_order_witness :
  (3 ≤ 3)%nat ∧
  ∃ t',
    run 3 (example_self [("val", 10%nat)] (VBool false) (VInt 1))
      {| input_queues := [[Payload 1%nat; Payload 2%nat; Sentinel]];
         output_queues := [[]] |} [] =
    (OK Terminated,
     {| input_queues := [[]];
        output_queues :=
          map (λ q, q ++ [Payload 1%nat; Payload 2%nat; Sentinel]) [[]] |},
     t').
Proof.
  split; [lia|].
  apply (run_forwards_in_order
           (example_self [("val", 10%nat)] (VBool false) (VInt 1))
           1%nat 2%nat [[]] [] 3).
  lia.
Defined.

(** * Further properties *)

(** ** PreloadedDataset: failures of the constructor and of reads *)

Section PreloadedDatasetMore.
Context {sample label D : Type} `{VisionDataset sample label D}.
Implicit Types (source : D) (self : PreloadedDataset sample label).

Lemma append_items_app source xs ys acc :
  append_items source (xs ++ ys) acc =
    match append_items source xs acc with
    | OK l => append_items source ys l
    | Raise e => Raise e
    end.
Proof.
  revert acc. induction xs as [|x xs IH]; intros acc; simpl; [done|].
  by destruct (getitem source (Z.of_nat x)).
Qed.

(** (X1) The constructor gives up at the first index the source cannot
    deliver: when [source[0]], ..., [source[k-1]] are read and [source[k]]
    raises, with [k < len(source)], the constructor raises that exception
    and no cache exists. *)
Theorem PreloadedDataset_init_first_failure source t (k : nat) e :
  (k < len source)%nat →
  (∀ idx : nat, (idx < k)%nat →
     is_OK (getitem source (Z.of_nat idx)) = true) →
  getitem source (Z.of_nat k) = Raise e →
  PreloadedDataset_init source t = Raise e.
Proof.
  intros Hk Hread He. unfold PreloadedDataset_init.
  replace (len source) with (k + S (len source - S k))%nat by lia.
  rewrite seq_app, append_items_app.
  destruct (append_items_readable source (seq 0 k) []) as [l ->].
  { intros idx [_ Hidx]%elem_of_seq. apply Hread. lia. }
  cbn [seq]. by rewrite (append_items_Raise source _ _ l e He).
Qed.

(** (X2) A read of a cache returns exactly when the index lies inside
    [-len <= index < len] and the cache has a transform; otherwise it
    raises, [IndexError] taking precedence over the [TypeError] of a missing
    transform. *)
Theorem PreloadedDataset_getitem_returns_iff self index :
  let n := Z.of_nat (PreloadedDataset_len self) in
  (is_OK (PreloadedDataset_getitem self index) = true
     ↔ (- n ≤ index < n ∧ transform self ≠ None)) ∧
  (index < - n ∨ n ≤ index →
     PreloadedDataset_getitem self index = Raise IndexError) ∧
  (- n ≤ index < n → transform self = None →
     PreloadedDataset_getitem self index = Raise TypeError).
Proof.
  intros n. subst n. unfold PreloadedDataset_len.
  assert (index < - Z.of_nat (length (data self))
          ∨ Z.of_nat (length (data self)) ≤ index →
          PreloadedDataset_getitem self index = Raise IndexError) as Hout.
  { intros Hi. unfold PreloadedDataset_getitem.
    by rewrite list_getitem_out_of_range. }
  split; [|split; [done|]].
  - split.
    + intros Hok.
      destruct (decide (- Z.of_nat (length (data self)) ≤ index
                        < Z.of_nat (length (data self)))) as [Hin|Hnotin].
      * split; [done|]. intros HT.
        rewrite (PreloadedDataset_getitem_None self index HT) in Hok. done.
      * rewrite Hout in Hok by lia. done.
    + intros [Hin HT]. unfold PreloadedDataset_getitem.
      destruct (list_getitem_in_range (data self) index Hin)
        as ([x y] & _ & ->).
      destruct (transform self); [done|congruence].
  - intros Hin HT. rewrite (PreloadedDataset_getitem_None self index HT).
    by zcase.
Qed.

End PreloadedDatasetMore.

(** ** prepare: what it keeps and where it stops *)

Section PrepareMore.
Context {sample label : Type} (env : Env sample label).
Implicit Types (self : TorchVisionDataset sample label)
  (d : dataset_obj sample label) (t : list event)
  (todo : dict (dataset_obj sample label))
  (caches : list (PreloadedDataset sample label)).

Local Abbreviation preloaded d :=
  (PreloadedDataset_init (set_transform d None) (get_transform d)).

Local Abbreviation cached todo caches :=
  (zip_with (λ kv c, (kv.1, Cache c)) todo caches).

Lemma len_set_transform d o : len (set_transform d o) = len d.
Proof. by destruct d. Qed.

Lemma preloaded_len d c : preloaded d = OK c → len (Cache c) = len d.
Proof.
  intros [_ Hdata]%PreloadedDataset_init_OK.
  apply Forall2_length in Hdata. rewrite length_seq in Hdata.
  rewrite len_set_transform in Hdata. done.
Qed.

Lemma dict_getitem_cached todo caches key d :
  Forall2 (λ kv c, preloaded kv.2 = OK c) todo caches →
  dict_getitem todo key = OK d →
  ∃ c, dict_getitem (cached todo caches) key = OK (Cache c) ∧
       preloaded d = OK c.
Proof.
  induction 1 as [|[k v] c todo caches Hc _ IH]; simpl; [done|].
  destruct (String.eqb k key); [|done].
  intros [= ->]. by exists c.
Qed.

(** A call of [prepare] that finds every cache constructible. *)
Lemma prepare_success self t b' caches :
  dict_wf (datasets self) →
  py_bool (preload self) = true →
  Stage_prepare env (base self) = OK b' →
  Forall2 (λ kv c, preloaded kv.2 = OK c) (datasets self) caches →
  outcome (prepare env self t) = OK tt ∧
  final_state (prepare env self t)
    = set_datasets (cached (datasets self) caches) (set_base b' self).
Proof.
  intros Hwf Hpre Hbase Hall. unfold prepare.
  destruct (log_phase_body "prepare" (prepare_body env) self t)
    as (t0 & -> & ->).
  rewrite prepare_body_unfold, Hbase, Hpre.
  rewrite (prepare_loop_OK (datasets self) [] [] (set_base b' self) t0 caches);
    rewrite ?app_nil_r; done.
Qed.

(** (X3) Preloading is transparent to a reader. For a stage whose entries
    are provider collections that carry a transform, apply it to the sample
    they deliver, and can be read without it at each index, [prepare] with
    [preload] true returns, and under each key the cache has the length of
    the collection it replaces and returns at every index
    [0 <= i < len] what that collection returned. *)
Theorem prepare_preserves_reads self t b' :
  dict_wf (datasets self) →
  py_bool (preload self) = true →
  Stage_prepare env (base self) = OK b' →
  Forall (λ kv, ∃ p T,
            kv.2 = Provider p ∧ pd_transform p = Some T ∧
            applies_transform p ∧
            ∀ idx : nat, (idx < pd_len p)%nat →
              is_OK (pd_fetch p None (Z.of_nat idx)) = true)
    (datasets self) →
  outcome (prepare env self t) = OK tt ∧
  ∀ key d,
    dict_getitem (datasets self) key = OK d →
    ∃ c,
      dict_getitem (datasets (final_state (prepare env self t))) key
        = OK (Cache c) ∧
      len (Cache c) = len d ∧
      ∀ i, 0 ≤ i < Z.of_nat (len d) → getitem (Cache c) i = getitem d i.
Proof.
  intros Hwf Hpre Hbase Hprov.
  assert (∃ caches,
            Forall2 (λ kv c, preloaded kv.2 = OK c) (datasets self) caches)
    as [caches Hall].
  { clear -Hprov. induction Hprov as [|[k v] todo Hv _ [caches IH]].
    - exists []. constructor.
    - destruct Hv as (p & T & Hp & HT & _ & Hread). cbn [snd] in Hp. subst v.
      destruct (PreloadedDataset_init_readable
                  (set_transform (Provider p) None)
                  (get_transform (Provider p))) as [c Hc].
      { intros idx Hidx. by apply Hread. }
      exists (c :: caches). by constructor. }
  destruct (prepare_success self t b' caches Hwf Hpre Hbase Hall)
    as [Hout ->].
  split; [done|]. intros key d Hd. cbn [datasets set_datasets].
  destruct (dict_getitem_cached _ _ key d Hall Hd) as (c & Hc & Hinit).
  exists c. split; [done|]. split; [by apply preloaded_len|].
  intros i Hi.
  apply dict_getitem_OK_elem_of in Hd.
  rewrite Forall_forall in Hprov.
  destruct (Hprov _ Hd) as (p & T & Hp & HT & Happlies & Hread).
  cbn [snd] in Hp. subst d.
  apply PreloadedDataset_init_OK in Hinit as [Htr Hdata].
  cbn [get_transform dataset_obj_VisionDataset ProviderDataset_VisionDataset]
    in Htr.
  rewrite HT in Htr.
  assert (seq 0 (pd_len p) !! Z.to_nat i = Some (Z.to_nat i)) as Hseq.
  { rewrite lookup_seq_lt; [done|]. cbn in Hi. lia. }
  destruct (Forall2_lookup_l _ _ _ _ _ Hdata Hseq) as ([x y] & Hit & Hget).
  rewrite Z2Nat.id in Hget by lia.
  cbn [getitem dataset_obj_VisionDataset ProviderDataset_VisionDataset
       PreloadedDataset_VisionDataset set_transform pd_transform pd_fetch]
    in Hget |- *.
  rewrite HT, Happlies, Hget. unfold PreloadedDataset_getitem.
  rewrite (list_getitem_lookup _ _ _ (proj1 Hi) Hit), Htr. done.
Qed.

(** (X4) [prepare] stops at the first entry whose cache cannot be built
    and lets the exception through. The entries before it are caches
    already; the entry itself stays in [self.datasets] with its transform
    set to [None], the transform it had being lost; the entries after it
    are untouched. *)
Theorem prepare_stops_at_first_failure self t b' before key d post caches e :
  dict_wf (datasets self) →
  py_bool (preload self) = true →
  Stage_prepare env (base self) = OK b' →
  datasets self = before ++ (key, d) :: post →
  Forall2 (λ kv c, preloaded kv.2 = OK c) before caches →
  preloaded d = Raise e →
  outcome (prepare env self t) = Raise e ∧
  datasets (final_state (prepare env self t))
    = zip_with (λ kv c, (kv.1, Cache c)) before caches
        ++ (key, set_transform d None) :: post.
Proof.
  intros Hwf Hpre Hbase Hd Hall He. unfold prepare.
  destruct (log_phase_body "prepare" (prepare_body env) self t)
    as (t0 & -> & ->).
  rewrite prepare_body_unfold, Hbase, Hpre, Hd.
  rewrite (prepare_loop_Raise before [] key d post (set_base b' self) t0
             caches e); try done.
  simpl. by rewrite <-Hd.
Qed.

(** The counts depend on keys and lengths only. *)
Lemma get_num_batches_ext self self' :
  batch_size self' = batch_size self →
  Forall2 (λ kv kv', kv'.1 = kv.1 ∧ len kv'.2 = len kv.2)
    (datasets self) (datasets self') →
  get_num_batches self' = get_num_batches self.
Proof.
  unfold get_num_batches. intros ->.
  generalize (datasets self) (datasets self') (@nil (string * Z)).
  intros ds ds' acc Hall. revert acc.
  induction Hall as [|[k v] [k' v'] ds ds' [Hk Hlen] _ IH]; intros acc;
    [done|].
  cbn [fst snd] in Hk, Hlen. subst k'. cbn [dict_comprehension_items].
  rewrite Hlen. monad_unfold.
  destruct (py_floordiv (Z.of_nat (len v)) (batch_size self)); [|done].
  apply IH.
Qed.

Lemma Forall2_same_keys_lens_refl todo :
  Forall2 (λ kv kv' : string * dataset_obj sample label,
             kv'.1 = kv.1 ∧ len kv'.2 = len kv.2) todo todo.
Proof. induction todo; by constructor. Qed.

Lemma Forall2_same_keys_lens_cached todo caches :
  Forall2 (λ kv c, preloaded kv.2 = OK c) todo caches →
  Forall2 (λ kv kv' : string * dataset_obj sample label,
             kv'.1 = kv.1 ∧ len kv'.2 = len kv.2)
    todo (cached todo caches).
Proof.
  induction 1 as [|[k v] c todo caches Hc _ IH]; [constructor|].
  cbn [zip_with]. constructor; [|done].
  split; [done|]. by apply preloaded_len.
Qed.

(** Whatever a call of [prepare] does, it leaves [preload] and
    [batch_size] alone and keeps the key and the length of every entry. *)
Lemma prepare_final_state self t :
  dict_wf (datasets self) →
  preload (final_state (prepare env self t)) = preload self ∧
  batch_size (final_state (prepare env self t)) = batch_size self ∧
  Forall2 (λ kv kv', kv'.1 = kv.1 ∧ len kv'.2 = len kv.2)
    (datasets self) (datasets (final_state (prepare env self t))).
Proof.
  intros Hwf. unfold prepare.
  destruct (log_phase_body "prepare" (prepare_body env) self t)
    as (t0 & _ & ->).
  destruct (Stage_prepare env (base self)) as [b'|e] eqn:Hbase.
  - destruct (py_bool (preload self)) eqn:Hpre.
    + destruct (prepare_body_cases env self t0 b' Hwf Hpre Hbase)
        as [(caches & Hall & ->)
           |(pre & key & d & post & caches & e & Hd & Hall & He & ->)];
        cbn [final_state fst snd preload batch_size datasets set_datasets
             set_base];
        (split; [done|]); (split; [done|]).
      * by apply Forall2_same_keys_lens_cached.
      * rewrite Hd. apply Forall2_app.
        { by apply Forall2_same_keys_lens_cached. }
        constructor; [|apply Forall2_same_keys_lens_refl].
        split; [done|]. apply len_set_transform.
    + rewrite prepare_body_unfold, Hbase, Hpre.
      cbn. split; [done|]. split; [done|].
      apply Forall2_same_keys_lens_refl.
  - rewrite prepare_body_unfold, Hbase. cbn. split; [done|]. split; [done|].
    apply Forall2_same_keys_lens_refl.
Qed.

(** (X5) A call of [prepare], whether it returns or raises part of the
    way, never adds, removes or reorders a split and never changes the
    length of an entry: the keys of [self.datasets] are the same after it,
    [preload] and [batch_size] are untouched, and [get_num_batches] gives
    after it what it gave before, be it a dictionary or an exception. *)
Theorem prepare_keeps_splits_and_num_batches self t :
  dict_wf (datasets self) →
  dict_keys (datasets (final_state (prepare env self t)))
    = dict_keys (datasets self) ∧
  preload (final_state (prepare env self t)) = preload self ∧
  batch_size (final_state (prepare env self t)) = batch_size self ∧
  get_num_batches (final_state (prepare env self t)) = get_num_batches self.
Proof.
  intros Hwf.
  destruct (prepare_final_state self t Hwf) as (Hpre & Hbatch & Hall).
  split; [|split; [done|split; [done|]]].
  - unfold dict_keys. clear -Hall.
    induction Hall as [|[k v] [k' v'] ds ds' [Hk _] _ IH]; [done|].
    rewrite !fmap_cons, IH. cbn [fst] in *. by subst.
  - by apply get_num_batches_ext.
Qed.

End PrepareMore.

(** ** The constructor: what it reads, probes and builds *)

Section InitMore.
Context {sample label : Type} (env : Env sample label).
Implicit Types (self : TorchVisionDataset sample label) (t : list event)
  (stage_config : gmap string config_entry) (inner : gmap string value)
  (cls : dataset_class sample label).

Lemma dict_getitem_setitem {V} (d : dict V) key v key' :
  dict_getitem (dict_setitem d key v) key' =
    if String.eqb key key' then OK v else dict_getitem d key'.
Proof.
  induction d as [|[k w] d IH]; simpl.
  - by destruct (String.eqb key key').
  - destruct (String.eqb_spec k key) as [->|Hne]; simpl.
    + by destruct (String.eqb key key').
    + destruct (String.eqb_spec k key') as [->|Hne'].
      * by destruct (String.eqb_spec key key') as [->|_].
      * apply IH.
Qed.

Lemma M_bind_unfold {S A B} (m : M S A) (f : A → M S B) s t :
  (m ≫= f) s t =
    match m s t with
    | (OK a, s', t') => f a s' t'
    | (Raise e, s', t') => (Raise e, s', t')
    end.
Proof. done. Qed.

Lemma instantiate_unfold {S} cls root x download (tr : Transform sample)
    (s : S) t :
  instantiate cls root x download tr s t =
    match cls root x download with
    | OK (n, fetch) =>
        (OK (Provider {| pd_transform := Some tr; pd_len := n;
                         pd_fetch := fetch |}),
         s, t ++ [EvDataset root x download])
    | Raise e => (Raise e, s, t ++ [EvDataset root x download])
    end.
Proof.
  unfold instantiate. monad_unfold.
  by destruct (cls root x download) as [[n fetch]|e].
Qed.

(** The comprehension of the constructor: one instantiation per element,
    in order; an element met twice is instantiated twice and keeps one
    entry. *)
Lemma dict_comprehension_instantiate cls root download tr xs :
  ∀ acc t d t',
    dict_comprehension
      (λ x, instantiate (S:=unit) cls root x download tr) xs acc tt t
      = (OK d, tt, t') →
    t' = t ++ map (λ x, EvDataset root x download) xs ∧
    (∀ x, x ∈ xs →
       ∃ n fetch, cls root x download = OK (n, fetch) ∧
         dict_getitem d x
           = OK (Provider {| pd_transform := Some tr; pd_len := n;
                             pd_fetch := fetch |})) ∧
    (∀ x, x ∉ xs → dict_getitem d x = dict_getitem acc x).
Proof.
  induction xs as [|x xs IH]; intros acc t d t'.
  - cbn [dict_comprehension]. monad_unfold. intros [= <- <-].
    split; [by rewrite app_nil_r|]. split; [|done].
    intros x Hx. by apply elem_of_nil in Hx.
  - cbn [dict_comprehension]. rewrite M_bind_unfold, instantiate_unfold.
    destruct (cls root x download) as [[n fetch]|e] eqn:Hcls; [|done].
    intros (-> & Hin & Hout)%IH. split; [|split].
    + by rewrite <-app_assoc.
    + intros y Hy. destruct (decide (y ∈ xs)) as [Hyin|Hynotin].
      { by apply Hin. }
      apply elem_of_cons in Hy as [->|Hy]; [|done].
      exists n, fetch. split; [done|].
      by rewrite Hout, dict_getitem_setitem, String.eqb_refl.
    + intros y Hy. apply not_elem_of_cons in Hy as [Hne Hy].
      rewrite Hout, dict_getitem_setitem by done.
      by destruct (String.eqb_spec x y) as [->|_].
Qed.

(** What a constructor that returned has read, probed and built. *)
Lemma TorchVisionDataset_init_returned stage_config parent t self t' :
  TorchVisionDataset_init env stage_config parent tt t = (OK self, tt, t') →
  ∃ inner dataset_name cls tr splits,
    default (Dict ∅) (stage_config !! "config") = Dict inner ∧
    inner !! "dataset_name" = Some (VStr dataset_name) ∧
    torchvision_datasets env dataset_name = Some cls ∧
    dataset self = cls ∧
    py_iter (default (VList ["val"]) (inner !! "split")) = OK splits ∧
    (if is_None (default VNone (inner !! "weights")) then tr = ToTensor env
     else ∃ w, get_weight env (default VNone (inner !! "weights")) = OK w ∧
               tr = transforms w) ∧
    let path := os_path_join (os_getcwd env) ["data"; dataset_name] in
    let download := negb (os_path_exists env path) in
    t' = t ++ [EvPathExists path]
           ++ (if is_None (default VNone (inner !! "weights")) then []
               else [EvGetWeight (default VNone (inner !! "weights"))])
           ++ map (λ x, EvDataset ("data/" +:+ dataset_name) x download)
                splits ∧
    ∀ x, x ∈ splits →
      ∃ n fetch,
        cls ("data/" +:+ dataset_name) x download = OK (n, fetch) ∧
        dict_getitem (datasets self) x
          = OK (Provider {| pd_transform := Some tr; pd_len := n;
                            pd_fetch := fetch |}).
Proof.
  unfold TorchVisionDataset_init, path_exists, call_get_weight.
  monad_unfold. cbv beta.
  destruct (Stage_init env stage_config parent) as [b|e]; [|done].
  destruct (default (Dict ∅) (stage_config !! "config")) as [v|inner];
    [done|].
  cbn [py_get].
  destruct (inner !! "dataset_name") as [[|?|?|name|?]|] eqn:Hname;
    cbn [default from_option id]; try done.
  destruct (torchvision_datasets env name) as [cls|] eqn:Hcls; [|done].
  cbv beta iota.
  set (path := os_path_join (os_getcwd env) ["data"; name]).
  set (download := negb (os_path_exists env path)).
  set (root := "data/" +:+ name).
  intros Hinit. exists inner, name, cls.
  destruct (is_None (default VNone (inner !! "weights"))) eqn:Hweights.
  - destruct (py_iter (default (VList ["val"]) (inner !! "split")))
      as [xs|e]; [|done].
    destruct (@dict_comprehension (M unit) _ _ _ _ xs [] tt _)
      as [[[d|e] []] t2] eqn:Hd; [|done].
    injection Hinit as <- <-.
    apply dict_comprehension_instantiate in Hd as (-> & Hin & _).
    exists (ToTensor env), xs. cbn [dataset datasets].
    repeat (split; [done|]). split; [|done].
    by rewrite <-app_assoc.
  - destruct (get_weight env _) as [w|e] eqn:Hw; [|done].
    destruct (py_iter (default (VList ["val"]) (inner !! "split")))
      as [xs|e]; [|done].
    destruct (@dict_comprehension (M unit) _ _ _ _ xs [] tt _)
      as [[[d|e] []] t2] eqn:Hd; [|done].
    injection Hinit as <- <-.
    apply dict_comprehension_instantiate in Hd as (-> & Hin & _).
    exists (transforms w), xs. cbn [dataset datasets].
    repeat (split; [done|]). split; [by exists w|]. split; [|done].
    by rewrite <-!app_assoc.
Qed.

(** (X6) The effects of a constructor that returns, in order: one probe
    [os.path.exists] of [<cwd>/data/<dataset_name>]; one call of
    [get_weight] if [weights] is configured; then one instantiation of the
    provider's class for each element of [split], in the order of [split]
    and as often as the element occurs, each with root
    [data/<dataset_name>] and with [download] true exactly when the probe
    found nothing. *)
Theorem init_effects_in_order stage_config parent t self t' :
  TorchVisionDataset_init env stage_config parent tt t = (OK self, tt, t') →
  ∃ inner dataset_name splits,
    default (Dict ∅) (stage_config !! "config") = Dict inner ∧
    inner !! "dataset_name" = Some (VStr dataset_name) ∧
    py_iter (default (VList ["val"]) (inner !! "split")) = OK splits ∧
    let path := os_path_join (os_getcwd env) ["data"; dataset_name] in
    let download := negb (os_path_exists env path) in
    t' = t ++ [EvPathExists path]
           ++ (if is_None (default VNone (inner !! "weights")) then []
               else [EvGetWeight (default VNone (inner !! "weights"))])
           ++ map (λ x, EvDataset ("data/" +:+ dataset_name) x download)
                splits.
Proof.
  intros (inner & name & cls & tr & splits & Hinner & Hname & _ & _ & Hsplit
          & _ & Htrace & _)%TorchVisionDataset_init_returned.
  by exists inner, name, splits.
Qed.

(** (X7) The entries of a stage that was constructed: [self.dataset] is
    the class that [torchvision.datasets] holds under [dataset_name], and
    under every requested split stands the collection that this class gave
    for the split, carrying one and the same transform: [v2.ToTensor()]
    when [weights] is absent or [None], the [transforms()] of
    [get_weight(weights)] otherwise. No entry is without a transform. *)
Theorem init_entries_carry_transform stage_config parent t self t' :
  TorchVisionDataset_init env stage_config parent tt t = (OK self, tt, t') →
  ∃ inner dataset_name cls tr splits,
    default (Dict ∅) (stage_config !! "config") = Dict inner ∧
    inner !! "dataset_name" = Some (VStr dataset_name) ∧
    torchvision_datasets env dataset_name = Some cls ∧
    dataset self = cls ∧
    py_iter (default (VList ["val"]) (inner !! "split")) = OK splits ∧
    (if is_None (default VNone (inner !! "weights")) then tr = ToTensor env
     else ∃ w, get_weight env (default VNone (inner !! "weights")) = OK w ∧
               tr = transforms w) ∧
    ∀ x, x ∈ splits →
      ∃ n fetch,
        cls ("data/" +:+ dataset_name) x
          (negb (os_path_exists env
                   (os_path_join (os_getcwd env) ["data"; dataset_name])))
          = OK (n, fetch) ∧
        dict_getitem (get_datasets self) x
          = OK (Provider {| pd_transform := Some tr; pd_len := n;
                            pd_fetch := fetch |}).
Proof.
  intros (inner & name & cls & tr & splits & Hinner & Hname & Hcls & Hds
          & Hsplit & Htr & _ & Hentries)%TorchVisionDataset_init_returned.
  by exists inner, name, cls, tr, splits.
Qed.

(** (X8) A configured [weights] that [get_weight] rejects: the
    constructor raises what [get_weight] raised, after the file system
    probe and before any dataset is instantiated or [split] is looked
    at. *)
Theorem init_weights_rejected stage_config parent t b inner dataset_name cls
    w e :
  Stage_init env stage_config parent = OK b →
  default (Dict ∅) (stage_config !! "config") = Dict inner →
  inner !! "dataset_name" = Some (VStr dataset_name) →
  torchvision_datasets env dataset_name = Some cls →
  inner !! "weights" = Some w →
  w ≠ VNone →
  get_weight env w = Raise e →
  TorchVisionDataset_init env stage_config parent tt t
    = (Raise e, tt,
       t ++ [EvPathExists (os_path_join (os_getcwd env) ["data"; dataset_name]);
             EvGetWeight w]).
Proof.
  intros Hbase Hinner Hname Hcls Hweights Hw He.
  unfold TorchVisionDataset_init, path_exists, call_get_weight.
  monad_unfold. cbv beta.
  rewrite Hbase, Hinner. cbn [py_get]. rewrite Hname.
  cbn [default from_option id]. rewrite Hcls. cbv beta iota.
  rewrite Hweights. cbn [default from_option id].
  destruct w; try done; cbn [is_None]; cbv beta iota; rewrite He;
    by rewrite <-app_assoc.
Qed.

(** (X9) A [dataset_name] that is not a string never names a dataset:
    [None] is reported as missing, a boolean or an integer as not found
    under its printed form, a list raises [TypeError] as a key that cannot
    be hashed; in each case nothing has been probed or instantiated. *)
Theorem init_dataset_name_not_a_string stage_config parent t b inner v :
  Stage_init env stage_config parent = OK b →
  default (Dict ∅) (stage_config !! "config") = Dict inner →
  inner !! "dataset_name" = Some v →
  (∀ s, v ≠ VStr s) →
  ∃ e,
    TorchVisionDataset_init env stage_config parent tt t = (Raise e, tt, t) ∧
    (v = VNone → e = ValueError "Missing dataset name.") ∧
    (∀ z, v = VInt z →
       e = Exception ("Could not find dataset " +:+ py_str_int z +:+ ".")) ∧
    (∀ b0, v = VBool b0 →
       e = Exception ("Could not find dataset " +:+ py_str_bool b0 +:+ ".")) ∧
    (∀ l, v = VList l → e = TypeError).
Proof.
  intros Hbase Hinner Hname Hnostr.
  unfold TorchVisionDataset_init. monad_unfold. cbv beta.
  rewrite Hbase, Hinner. cbn [py_get]. rewrite Hname.
  cbn [default from_option id].
  destruct v as [|b0|z|s|l]; [| | |by destruct (Hnostr s)|];
    eexists; (split; [reflexivity|]); repeat split; congruence.
Qed.

(** The comprehension stops at the first element the class rejects. *)
Lemma dict_comprehension_instantiate_Raise cls root download tr pre :
  ∀ x post acc t e,
    Forall (λ y, is_OK (cls root y download) = true) pre →
    cls root x download = Raise e →
    dict_comprehension
      (λ y, instantiate (S:=unit) cls root y download tr)
      (pre ++ x :: post) acc tt t
    = (Raise e, tt, t ++ map (λ y, EvDataset root y download) (pre ++ [x])).
Proof.
  induction pre as [|y pre IH]; intros x post acc t e Hpre He.
  - cbn [app dict_comprehension].
    by rewrite M_bind_unfold, instantiate_unfold, He.
  - apply Forall_cons in Hpre as [Hy Hpre].
    cbn [app dict_comprehension].
    rewrite M_bind_unfold, instantiate_unfold.
    destruct (cls root y download) as [[n fetch]|e'] eqn:Hcls; [|done].
    rewrite (IH x post _ _ e Hpre He). cbn [map]. by rewrite <-app_assoc.
Qed.

(** (X15) A split that the provider's class rejects: the constructor
    raises what the class raised and no stage exists. By then the file
    system has been probed and the splits listed before the rejected one
    have been instantiated (and downloaded, if the probe found nothing);
    the splits listed after it are never asked for. *)
Theorem init_split_rejected stage_config parent t b inner dataset_name cls
    pre x post e :
  Stage_init env stage_config parent = OK b →
  default (Dict ∅) (stage_config !! "config") = Dict inner →
  inner !! "dataset_name" = Some (VStr dataset_name) →
  torchvision_datasets env dataset_name = Some cls →
  inner !! "weights" = None →
  py_iter (default (VList ["val"]) (inner !! "split")) = OK (pre ++ x :: post) →
  let path := os_path_join (os_getcwd env) ["data"; dataset_name] in
  let download := negb (os_path_exists env path) in
  Forall (λ y, is_OK (cls ("data/" +:+ dataset_name) y download) = true) pre →
  cls ("data/" +:+ dataset_name) x download = Raise e →
  TorchVisionDataset_init env stage_config parent tt t
    = (Raise e, tt,
       t ++ [EvPathExists path]
         ++ map (λ y, EvDataset ("data/" +:+ dataset_name) y download)
              (pre ++ [x])).
Proof.
  intros Hbase Hinner Hname Hcls Hweights Hsplit path download Hpre He.
  unfold TorchVisionDataset_init, path_exists. monad_unfold. cbv beta.
  rewrite Hbase, Hinner. cbn [py_get]. rewrite Hname.
  cbn [default from_option id]. rewrite Hcls. cbv beta iota.
  rewrite Hweights. cbn [default from_option id is_None]. cbv beta iota.
  rewrite Hsplit. cbv beta iota.
  pose proof (dict_comprehension_instantiate_Raise cls
                ("data/" +:+ dataset_name) download (ToTensor env) pre x post
                [] (t ++ [EvPathExists path]) e Hpre He) as Hrun.
  match goal with
  | |- context [@dict_comprehension ?F ?B ?R ?V ?f ?xs ?acc ?s ?t0] =>
      rewrite (Hrun : @dict_comprehension F B R V f xs acc s t0 = _)
  end.
  by rewrite <-app_assoc.
Qed.



End InitMore.

(** ** Batch counts: failures and bounds *)

Section NumBatchesMore.
Context {sample label : Type}.
Implicit Types (self : TorchVisionDataset sample label).

(** (X10) When [get_num_batches] fails and when it does not look at
    [batch_size] at all: without any split it returns the empty dictionary
    whatever [batch_size] is; with at least one split it raises
    [ZeroDivisionError] for 0 and for [False], [TypeError] for [None], a
    string or a list; for [True] the counts are the lengths. *)
Theorem get_num_batches_edge_cases self :
  dict_wf (datasets self) →
  (datasets self = [] → get_num_batches self = OK []) ∧
  (datasets self ≠ [] →
   batch_size self = VInt 0 ∨ batch_size self = VBool false →
   get_num_batches self = Raise ZeroDivisionError) ∧
  (datasets self ≠ [] →
   (batch_size self = VNone ∨ (∃ s, batch_size self = VStr s)
    ∨ ∃ l, batch_size self = VList l) →
   get_num_batches self = Raise TypeError) ∧
  (batch_size self = VBool true →
   get_num_batches self
     = OK ((λ kv, (kv.1, Z.of_nat (len kv.2))) <$> datasets self)).
Proof.
  intros Hwf. unfold get_num_batches. split; [|split; [|split]].
  - by intros ->.
  - intros Hne Hb. destruct (datasets self) as [|[k v] ds]; [done|].
    cbn [dict_comprehension_items]. monad_unfold.
    by destruct Hb as [-> | ->].
  - intros Hne Hb. destruct (datasets self) as [|[k v] ds]; [done|].
    cbn [dict_comprehension_items]. monad_unfold.
    by destruct Hb as [-> | [[s ->] | [l ->]]].
  - intros ->.
    rewrite (dict_comprehension_items_OK _ (λ v, Z.of_nat (len v))); try done.
    apply Forall_forall. intros [k v] _. cbn [py_floordiv snd].
    by rewrite Z.div_1_r.
Qed.

(** (X11) For a positive integer [batch_size] the count of a split is the
    number of full batches: it is not negative, that many batches fit into
    the collection, and what remains is less than one batch. *)
Theorem get_num_batches_full_batches self b :
  dict_wf (datasets self) →
  batch_size self = VInt b →
  0 < b →
  ∃ num_batches,
    get_num_batches self = OK num_batches ∧
    ∀ s d,
      dict_getitem (get_datasets self) s = OK d →
      ∃ n,
        dict_getitem num_batches s = OK n ∧
        0 ≤ n ∧
        n * b ≤ Z.of_nat (len d) < (n + 1) * b.
Proof.
  intros Hwf Hb Hpos. eexists. split.
  { apply get_num_batches_OK; [done|done|lia]. }
  intros s d Hd. unfold get_datasets in Hd.
  exists (Z.of_nat (len d) / b).
  rewrite (dict_getitem_fmap (λ v, Z.of_nat (len v) / b)), Hd.
  split; [done|].
  pose proof (Z.mul_div_le (Z.of_nat (len d)) b Hpos).
  pose proof (Z.mul_succ_div_gt (Z.of_nat (len d)) b Hpos).
  split; [apply Z.div_pos; lia|]. lia.
Qed.

End NumBatchesMore.

(** ** The run loop: what reaches the output *)

Section RunMore.
Context {sample label payload : Type}.
Implicit Types (self : TorchVisionDataset sample label)
  (w : queues payload) (t : list event) (r : queue_record payload)
  (rs : list (queue_record payload)) (qs : list (list (queue_record payload))).

Lemma map_drop_zip_with_cons rs qs (k : nat) :
  length rs = length qs →
  map (drop (S k)) (zip_with cons rs qs) = map (drop k) qs.
Proof.
  revert qs. induction rs as [|r rs IH]; intros [|q qs] Hlen; try done.
  injection Hlen as Hlen. simpl. by rewrite IH.
Qed.

Lemma elem_of_zip_with_cons rs qs q :
  q ∈ zip_with cons rs qs → ∃ r q', q = r :: q' ∧ q' ∈ qs.
Proof.
  revert qs. induction rs as [|r rs IH]; intros [|q0 qs]; simpl;
    try (by intros ?%elem_of_nil).
  intros [->|Hin]%elem_of_cons.
  - exists r, q0. split; [done|left].
  - destruct (IH qs Hin) as (r' & q' & -> & Hq'). exists r', q'.
    split; [done|by right].
Qed.

Lemma map_drop_0 qs : map (drop 0) qs = qs.
Proof. induction qs as [|q qs IH]; simpl; [done|]. by rewrite IH. Qed.

Lemma map_app_nil (outs : list (list (queue_record payload))) :
  map (λ q, q ++ []) outs = outs.
Proof.
  induction outs as [|q outs IH]; simpl; [done|]. by rewrite app_nil_r, IH.
Qed.

(** One iteration without any input queue. *)
Lemma run_no_queues fuel self w t :
  input_queues w = [] →
  run (S fuel) self w t =
    (Raise IndexError, w,
     t ++ if disable_logs (base self) then []
          else [EvLog (parent_name (base self)) (name (base self))
                  "run" "start"]).
Proof.
  intros Hqs. cbn [run]. unfold get_next_from_queues, log_phase_single.
  monad_unfold. cbv beta. rewrite Hqs. cbn [take_heads]. cbv beta iota.
  cbn [imap is_done map existsb].
  destruct w as [ins outs]. cbn in Hqs. subst ins. cbn.
  destruct (disable_logs (base self)); cbn; [by rewrite app_nil_r|done].
Qed.

(** (X12) Whatever the queues hold and however the loop ends (left at a
    sentinel, blocked on an empty queue, failed, or still running after
    [fuel] iterations), there is a number [k] of completed fetches such
    that every input queue has lost exactly its first [k] records and every
    output queue has gained exactly the first [k] records of the first
    input queue, in their order. Nothing from another queue, nothing twice
    and nothing out of order is ever pushed. *)
Theorem run_forwards_prefix_of_first_queue self fuel :
  ∀ w t,
    ∃ k : nat,
      (∀ q, q ∈ input_queues w → (k ≤ length q)%nat) ∧
      input_queues (final_state (run fuel self w t))
        = map (drop k) (input_queues w) ∧
      output_queues (final_state (run fuel self w t))
        = map (λ q, q ++ take k (hd [] (input_queues w))) (output_queues w).
Proof.
  induction fuel as [|fuel IH]; intros w t.
  { exists 0%nat. cbn. split; [intros; lia|].
    by rewrite map_drop_0, map_app_nil. }
  destruct (take_heads (input_queues w)) as [[rs qs']|] eqn:Hheads.
  - pose proof (take_heads_Some _ _ _ Hheads) as [Hqs Hlen].
    destruct rs as [|first others].
    + destruct qs' as [|? ?]; [|done]. cbn in Hqs.
      rewrite (run_no_queues fuel self w t Hqs). exists 0%nat.
      cbn [final_state fst snd]. rewrite Hqs. cbn.
      split; [by intros q ?%elem_of_nil|]. by rewrite map_app_nil.
    + destruct qs' as [|q' qs']; [done|].
      destruct (existsb is_sentinel (first :: others)) eqn:Hdone.
      * rewrite (run_done fuel self w t first others (q' :: qs')) by done.
        exists 1%nat. cbn [final_state fst snd input_queues output_queues].
        rewrite Hqs. split; [|split].
        -- intros q (r & q0 & -> & _)%elem_of_zip_with_cons. simpl. lia.
        -- rewrite map_drop_zip_with_cons by done. by rewrite map_drop_0.
        -- done.
      * rewrite (run_forward fuel self w t first others (q' :: qs')) by done.
        destruct (IH {| input_queues := q' :: qs';
                        output_queues :=
                          map (λ q, q ++ [first]) (output_queues w) |}
                     (t ++ (if disable_logs (base self) then []
                            else [EvLog (parent_name (base self))
                                    (name (base self)) "run" "start";
                                  EvLog (parent_name (base self))
                                    (name (base self)) "run" "end"])))
          as (k & Hk & -> & ->).
        exists (S k). cbn [input_queues output_queues]. rewrite Hqs.
        split; [|split].
        -- intros q (r & q0 & -> & Hq0)%elem_of_zip_with_cons.
           specialize (Hk q0 Hq0). simpl. lia.
        -- by rewrite map_drop_zip_with_cons.
        -- rewrite map_map. apply map_ext. intros q.
           cbn. by rewrite <-app_assoc.
  - cbn [run]. unfold get_next_from_queues. monad_unfold. cbv beta.
    rewrite Hheads. cbn. exists 0%nat. split; [intros; lia|].
    by rewrite map_drop_0, map_app_nil.
Qed.

(** (X13) A stage without input queues cannot run: the first iteration
    finds an empty batch, which is not the end of the stream, and
    [list(inputs.values())[0]] raises [IndexError]; nothing is pushed. *)
Theorem run_without_input_queues_fails self fuel w t :
  input_queues w = [] →
  (0 < fuel)%nat →
  outcome (run fuel self w t) = Raise IndexError ∧
  final_state (run fuel self w t) = w.
Proof.
  intros Hqs Hfuel. destruct fuel as [|fuel]; [lia|].
  by rewrite (run_no_queues fuel self w t Hqs).
Qed.



End RunMore.

(** * The further properties on the concrete pipeline *)

Lemma example_fetch_applies_transform (n : nat) (T : Transform nat)
    (index : Z) :
  example_fetch n (Some T) index
    = (λ it : item nat nat, (T it.1, it.2)) <$> example_fetch n None index.
Proof. unfold example_fetch. by zcase. Defined.

Lemma example_fetch_readable (n idx : nat) :
  (idx < n)%nat → is_OK (example_fetch n None (Z.of_nat idx)) = true.
Proof. intros Hidx. unfold example_fetch. by zcase. Defined.

Lemma example_keys_NoDup (ks : list string) :
  bool_decide (NoDup ks) = true → NoDup ks.
Proof. intros Hks. by apply bool_decide_eq_true in Hks. Defined.

(** X1 on the collection whose item at index 1 cannot be read. *)
Lemma init_first_failure_witness :
  (1 < len example_broken)%nat ∧
  (∀ idx : nat, (idx < 1)%nat →
     is_OK (getitem example_broken (Z.of_nat idx)) = true) ∧
  getitem example_broken (Z.of_nat 1) = Raise (ProviderError "unreadable") ∧
  PreloadedDataset_init example_broken None
    = Raise (ProviderError "unreadable").
Proof.
  assert (1 < len example_broken)%nat as Hlen by (cbn; lia).
  assert (∀ idx : nat, (idx < 1)%nat →
            is_OK (getitem example_broken (Z.of_nat idx)) = true) as Hread.
  { intros [|idx] Hidx; [reflexivity|lia]. }
  split; [exact Hlen|]. split; [exact Hread|]. split; [reflexivity|].
  exact (PreloadedDataset_init_first_failure example_broken None 1
           (ProviderError "unreadable") Hlen Hread eq_refl).
Defined.

(** X3 on the stage with the splits ["train"] and ["val"]. *)
Lemma prepare_preserves_reads_witness :
  dict_wf (datasets example_two_splits) ∧
  py_bool (preload example_two_splits) = true ∧
  Stage_prepare example_env (base example_two_splits) = OK example_base ∧
  Forall (λ kv, ∃ p T,
            kv.2 = Provider p ∧ pd_transform p = Some T ∧
            applies_transform p ∧
            ∀ idx : nat, (idx < pd_len p)%nat →
              is_OK (pd_fetch p None (Z.of_nat idx)) = true)
    (datasets example_two_splits) ∧
  outcome (prepare example_env example_two_splits []) = OK tt ∧
  ∀ key d,
    dict_getitem (datasets example_two_splits) key = OK d →
    ∃ c,
      dict_getitem
        (datasets (final_state (prepare example_env example_two_splits [])))
        key = OK (Cache c) ∧
      len (Cache c) = len d ∧
      ∀ i, 0 ≤ i < Z.of_nat (len d) → getitem (Cache c) i = getitem d i.
Proof.
  assert (dict_wf (datasets example_two_splits)) as Hwf.
  { apply example_dict_wf, example_keys_NoDup. vm_compute. reflexivity. }
  assert (Forall (λ kv, ∃ p T,
            kv.2 = Provider p ∧ pd_transform p = Some T ∧
            applies_transform p ∧
            ∀ idx : nat, (idx < pd_len p)%nat →
              is_OK (pd_fetch p None (Z.of_nat idx)) = true)
            (datasets example_two_splits)) as Hprov.
  { repeat constructor;
      (eexists; eexists; split; [reflexivity|]; split; [reflexivity|];
       split; [intros T index; apply example_fetch_applies_transform|
               intros idx Hidx; by apply example_fetch_readable]). }
  split; [exact Hwf|]. split; [reflexivity|]. split; [reflexivity|].
  split; [exact Hprov|].
  exact (prepare_preserves_reads example_env example_two_splits []
           example_base Hwf eq_refl eq_refl Hprov).
Defined.

(** X4 on the stage whose second collection cannot be read. *)
Lemma prepare_stops_at_first_failure_witness :
  dict_wf (datasets example_partly_broken) ∧
  py_bool (preload example_partly_broken) = true ∧
  Stage_prepare example_env (base example_partly_broken) = OK example_base ∧
  datasets example_partly_broken
    = [("train", example_collection 2)] ++ ("val", example_broken)
        :: [("test", example_collection 2)] ∧
  Forall2 (λ kv c,
             PreloadedDataset_init (set_transform kv.2 None)
               (get_transform kv.2) = OK c)
    [("train", example_collection 2)] [example_preloaded 2] ∧
  PreloadedDataset_init (set_transform example_broken None)
    (get_transform example_broken) = Raise (ProviderError "unreadable") ∧
  outcome (prepare example_env example_partly_broken [])
    = Raise (ProviderError "unreadable") ∧
  datasets (final_state (prepare example_env example_partly_broken []))
    = zip_with (λ kv c, (kv.1, Cache c))
        [("train", example_collection 2)] [example_preloaded 2]
        ++ ("val", set_transform example_broken None)
        :: [("test", example_collection 2)].
Proof.
  assert (dict_wf (datasets example_partly_broken)) as Hwf.
  { apply example_keys_NoDup. vm_compute. reflexivity. }
  assert (Forall2 (λ kv c,
             PreloadedDataset_init (set_transform kv.2 None)
               (get_transform kv.2) = OK c)
            [("train", example_collection 2)] [example_preloaded 2]) as Hall.
  { constructor; [vm_compute; reflexivity|constructor]. }
  split; [exact Hwf|]. split; [reflexivity|]. split; [reflexivity|].
  split; [reflexivity|]. split; [exact Hall|]. split; [reflexivity|].
  exact (prepare_stops_at_first_failure example_env example_partly_broken []
           example_base [("train", example_collection 2)] "val" example_broken
           [("test", example_collection 2)] [example_preloaded 2]
           (ProviderError "unreadable") Hwf eq_refl eq_refl eq_refl Hall
           eq_refl).
Defined.

(** X5 on the stage whose second collection cannot be read, where
    [prepare] raises part of the way. *)
Lemma prepare_keeps_splits_witness :
  dict_wf (datasets example_partly_broken) ∧
  dict_keys (datasets (final_state
                         (prepare example_env example_partly_broken [])))
    = dict_keys (datasets example_partly_broken) ∧
  preload (final_state (prepare example_env example_partly_broken []))
    = preload example_partly_broken ∧
  batch_size (final_state (prepare example_env example_partly_broken []))
    = batch_size example_partly_broken ∧
  get_num_batches (final_state (prepare example_env example_partly_broken []))
    = get_num_batches example_partly_broken.
Proof.
  assert (dict_wf (datasets example_partly_broken)) as Hwf.
  { apply example_keys_NoDup. vm_compute. reflexivity. }
  split; [exact Hwf|].
  exact (prepare_keeps_splits_and_num_batches example_env
           example_partly_broken [] Hwf).
Defined.

Lemma example_init_val4 :
  TorchVisionDataset_init example_env example_config_batch4 "pipeline" tt []
  = (OK example_val4, tt,
     [EvPathExists "/work/data/Example";
      EvDataset "data/Example" "val" true]).
Proof. vm_compute. reflexivity. Defined.

(** X6 on the configuration with [dataset_name] ["Example"]. *)
Lemma init_effects_in_order_witness :
  TorchVisionDataset_init example_env example_config_batch4 "pipeline" tt []
  = (OK example_val4, tt,
     [EvPathExists "/work/data/Example";
      EvDataset "data/Example" "val" true]) ∧
  ∃ inner dataset_name splits,
    default (Dict ∅) (example_config_batch4 !! "config") = Dict inner ∧
    inner !! "dataset_name" = Some (VStr dataset_name) ∧
    py_iter (default (VList ["val"]) (inner !! "split")) = OK splits ∧
    let path := os_path_join (os_getcwd example_env) ["data"; dataset_name] in
    let download := negb (os_path_exists example_env path) in
    [EvPathExists "/work/data/Example"; EvDataset "data/Example" "val" true]
      = [] ++ [EvPathExists path]
           ++ (if is_None (default VNone (inner !! "weights")) then []
               else [EvGetWeight (default VNone (inner !! "weights"))])
           ++ map (λ x, EvDataset ("data/" +:+ dataset_name) x download)
                splits.
Proof.
  split; [exact example_init_val4|].
  exact (init_effects_in_order example_env example_config_batch4 "pipeline"
           [] example_val4 _ example_init_val4).
Defined.

(** X7 on the configuration with [dataset_name] ["Example"]. *)
Lemma init_entries_carry_transform_witness :
  TorchVisionDataset_init example_env example_config_batch4 "pipeline" tt []
  = (OK example_val4, tt,
     [EvPathExists "/work/data/Example";
      EvDataset "data/Example" "val" true]) ∧
  ∃ inner dataset_name cls tr splits,
    default (Dict ∅) (example_config_batch4 !! "config") = Dict inner ∧
    inner !! "dataset_name" = Some (VStr dataset_name) ∧
    torchvision_datasets example_env dataset_name = Some cls ∧
    dataset example_val4 = cls ∧
    py_iter (default (VList ["val"]) (inner !! "split")) = OK splits ∧
    (if is_None (default VNone (inner !! "weights"))
     then tr = ToTensor example_env
     else ∃ w,
       get_weight example_env (default VNone (inner !! "weights")) = OK w ∧
       tr = transforms w) ∧
    ∀ x, x ∈ splits →
      ∃ n fetch,
        cls ("data/" +:+ dataset_name) x
          (negb (os_path_exists example_env
                   (os_path_join (os_getcwd example_env)
                      ["data"; dataset_name])))
          = OK (n, fetch) ∧
        dict_getitem (get_datasets example_val4) x
          = OK (Provider {| pd_transform := Some tr; pd_len := n;
                            pd_fetch := fetch |}).
Proof.
  split; [exact example_init_val4|].
  exact (init_entries_carry_transform example_env example_config_batch4
           "pipeline" [] example_val4 _ example_init_val4).
Defined.

(** X8 on a configuration that names weights the registry rejects. *)
Lemma init_weights_rejected_witness :
  Stage_init example_env
    (example_config [("dataset_name", VStr "Example"); ("weights", VStr "W")])
    "pipeline" = OK example_base ∧
  default (Dict ∅)
    (example_config [("dataset_name", VStr "Example"); ("weights", VStr "W")]
       !! "config")
    = Dict (list_to_map [("dataset_name", VStr "Example");
                         ("weights", VStr "W")]) ∧
  (list_to_map [("dataset_name", VStr "Example"); ("weights", VStr "W")]
     : gmap string value) !! "dataset_name" = Some (VStr "Example") ∧
  torchvision_datasets example_env "Example" = Some example_class ∧
  (list_to_map [("dataset_name", VStr "Example"); ("weights", VStr "W")]
     : gmap string value) !! "weights" = Some (VStr "W") ∧
  VStr "W" ≠ VNone ∧
  get_weight example_env (VStr "W") = Raise (ValueError "Unknown weights.") ∧
  TorchVisionDataset_init example_env
    (example_config [("dataset_name", VStr "Example"); ("weights", VStr "W")])
    "pipeline" tt []
    = (Raise (ValueError "Unknown weights."), tt,
       [] ++ [EvPathExists
                (os_path_join (os_getcwd example_env) ["data"; "Example"]);
              EvGetWeight (VStr "W")]).
Proof.
  split; [reflexivity|]. split; [vm_compute; reflexivity|].
  split; [vm_compute; reflexivity|]. split; [reflexivity|].
  split; [vm_compute; reflexivity|]. split; [discriminate|].
  split; [reflexivity|].
  apply (init_weights_rejected example_env _ "pipeline" [] example_base
           (list_to_map [("dataset_name", VStr "Example");
                         ("weights", VStr "W")])
           "Example" example_class (VStr "W") (ValueError "Unknown weights."));
    [reflexivity|vm_compute; reflexivity|vm_compute; reflexivity|reflexivity
    |vm_compute; reflexivity|discriminate|reflexivity].
Defined.

(** X9 on a configuration whose [dataset_name] is the integer 5. *)
Lemma init_dataset_name_not_a_string_witness :
  Stage_init example_env (example_config [("dataset_name", VInt 5)])
    "pipeline" = OK example_base ∧
  default (Dict ∅) (example_config [("dataset_name", VInt 5)] !! "config")
    = Dict (list_to_map [("dataset_name", VInt 5)]) ∧
  (list_to_map [("dataset_name", VInt 5)] : gmap string value)
    !! "dataset_name" = Some (VInt 5) ∧
  (∀ s, VInt 5 ≠ VStr s) ∧
  ∃ e,
    TorchVisionDataset_init example_env
      (example_config [("dataset_name", VInt 5)]) "pipeline" tt []
      = (Raise e, tt, []) ∧
    (VInt 5 = VNone → e = ValueError "Missing dataset name.") ∧
    (∀ z, VInt 5 = VInt z →
       e = Exception ("Could not find dataset " +:+ py_str_int z +:+ ".")) ∧
    (∀ b0, VInt 5 = VBool b0 →
       e = Exception ("Could not find dataset " +:+ py_str_bool b0 +:+ ".")) ∧
    (∀ l, VInt 5 = VList l → e = TypeError).
Proof.
  split; [reflexivity|]. split; [vm_compute; reflexivity|].
  split; [vm_compute; reflexivity|]. split; [discriminate|].
  apply (init_dataset_name_not_a_string example_env _ "pipeline" []
           example_base (list_to_map [("dataset_name", VInt 5)]) (VInt 5));
    [reflexivity|vm_compute; reflexivity|vm_compute; reflexivity|discriminate].
Defined.

(** X10 on the stage with one split and [batch_size] 4. *)
Lemma get_num_batches_edge_cases_witness :
  dict_wf (datasets example_val4) ∧
  (datasets example_val4 = [] → get_num_batches example_val4 = OK []) ∧
  (datasets example_val4 ≠ [] →
   batch_size example_val4 = VInt 0 ∨ batch_size example_val4 = VBool false →
   get_num_batches example_val4 = Raise ZeroDivisionError) ∧
  (datasets example_val4 ≠ [] →
   (batch_size example_val4 = VNone ∨ (∃ s, batch_size example_val4 = VStr s)
    ∨ ∃ l, batch_size example_val4 = VList l) →
   get_num_batches example_val4 = Raise TypeError) ∧
  (batch_size example_val4 = VBool true →
   get_num_batches example_val4
     = OK ((λ kv, (kv.1, Z.of_nat (len kv.2))) <$> datasets example_val4)).
Proof.
  assert (dict_wf (datasets example_val4)) as Hwf.
  { apply example_dict_wf, example_keys_NoDup. vm_compute. reflexivity. }
  split; [exact Hwf|].
  exact (get_num_batches_edge_cases example_val4 Hwf).
Defined.

(** X11 on the stage with ten samples and [batch_size] 4. *)
Lemma get_num_batches_full_batches_witness :
  dict_wf (datasets example_val4) ∧
  batch_size example_val4 = VInt 4 ∧
  0 < 4 ∧
  ∃ num_batches,
    get_num_batches example_val4 = OK num_batches ∧
    ∀ s d,
      dict_getitem (get_datasets example_val4) s = OK d →
      ∃ n,
        dict_getitem num_batches s = OK n ∧
        0 ≤ n ∧
        n * 4 ≤ Z.of_nat (len d) < (n + 1) * 4.
Proof.
  assert (dict_wf (datasets example_val4)) as Hwf.
  { apply example_dict_wf, example_keys_NoDup. vm_compute. reflexivity. }
  assert (0 < 4) as Hpos by lia.
  split; [exact Hwf|]. split; [reflexivity|]. split; [exact Hpos|].
  exact (get_num_batches_full_batches example_val4 4 Hwf eq_refl Hpos).
Defined.

(** X13 on a stage without input queues. *)
Lemma run_without_input_queues_witness :
  input_queues ({| input_queues := []; output_queues := [[]] |} : queues nat)
    = [] ∧
  (0 < 1)%nat ∧
  outcome (run 1 example_val4
             ({| input_queues := []; output_queues := [[]] |} : queues nat) [])
    = Raise IndexError ∧
  final_state (run 1 example_val4
                 ({| input_queues := []; output_queues := [[]] |}
                    : queues nat) [])
    = {| input_queues := []; output_queues := [[]] |}.
Proof.
  assert (0 < 1)%nat as Hfuel by lia.
  split; [reflexivity|]. split; [exact Hfuel|].
  exact (run_without_input_queues_fails example_val4 1
           {| input_queues := []; output_queues := [[]] |} [] eq_refl Hfuel).
Defined.


(** X15 on the provider without a split ["test"], asked for
    ["train"], ["test"] and ["val"]. *)
Lemma init_split_rejected_witness :
  Stage_init example_strict_env
    (example_config [("dataset_name", VStr "Strict");
                     ("split", VList ["train"; "test"; "val"])])
    "pipeline" = OK example_base ∧
  default (Dict ∅)
    (example_config [("dataset_name", VStr "Strict");
                     ("split", VList ["train"; "test"; "val"])] !! "config")
    = Dict (list_to_map [("dataset_name", VStr "Strict");
                         ("split", VList ["train"; "test"; "val"])]) ∧
  (list_to_map [("dataset_name", VStr "Strict");
                ("split", VList ["train"; "test"; "val"])]
     : gmap string value) !! "dataset_name" = Some (VStr "Strict") ∧
  torchvision_datasets example_strict_env "Strict"
    = Some example_strict_class ∧
  (list_to_map [("dataset_name", VStr "Strict");
                ("split", VList ["train"; "test"; "val"])]
     : gmap string value) !! "weights" = None ∧
  py_iter (default (VList ["val"])
             ((list_to_map [("dataset_name", VStr "Strict");
                            ("split", VList ["train"; "test"; "val"])]
                 : gmap string value) !! "split"))
    = OK (["train"] ++ "test" :: ["val"]) ∧
  Forall (λ y, is_OK (example_strict_class ("data/" +:+ "Strict") y
                        (negb (os_path_exists example_strict_env
                                 (os_path_join (os_getcwd example_strict_env)
                                    ["data"; "Strict"])))) = true)
    ["train"] ∧
  example_strict_class ("data/" +:+ "Strict") "test"
    (negb (os_path_exists example_strict_env
             (os_path_join (os_getcwd example_strict_env) ["data"; "Strict"])))
    = Raise (ValueError "Unknown split.") ∧
  TorchVisionDataset_init example_strict_env
    (example_config [("dataset_name", VStr "Strict");
                     ("split", VList ["train"; "test"; "val"])])
    "pipeline" tt []
    = (Raise (ValueError "Unknown split."), tt,
       [] ++ [EvPathExists
                (os_path_join (os_getcwd example_strict_env)
                   ["data"; "Strict"])]
          ++ map (λ y, EvDataset ("data/" +:+ "Strict") y
                         (negb (os_path_exists example_strict_env
                                  (os_path_join (os_getcwd example_strict_env)
                                     ["data"; "Strict"]))))
               (["train"] ++ ["test"])).
Proof.
  assert (Forall (λ y, is_OK (example_strict_class ("data/" +:+ "Strict") y
                        (negb (os_path_exists example_strict_env
                                 (os_path_join (os_getcwd example_strict_env)
                                    ["data"; "Strict"])))) = true)
            ["train"]) as Hpre.
  { constructor; [reflexivity|constructor]. }
  split; [reflexivity|]. split; [vm_compute; reflexivity|].
  split; [vm_compute; reflexivity|]. split; [reflexivity|].
  split; [vm_compute; reflexivity|]. split; [vm_compute; reflexivity|].
  split; [exact Hpre|]. split; [reflexivity|].
  apply (init_split_rejected example_strict_env _ "pipeline" [] example_base
           (list_to_map [("dataset_name", VStr "Strict");
                         ("split", VList ["train"; "test"; "val"])])
           "Strict" example_strict_class ["train"] "test" ["val"]
           (ValueError "Unknown split."));
    [reflexivity|vm_compute; reflexivity|vm_compute; reflexivity|reflexivity
    |vm_compute; reflexivity|vm_compute; reflexivity|exact Hpre|reflexivity].
Defined.


